(** * perceptron.py: a multilayer perceptron with sigmoid activation

    A shallow embedding of [src/perceptron.py] ([sigmoid], [deriv_sigmoid],
    [Perceptron.__init__], [Perceptron.feedforward], [Perceptron.learn]) and
    of the part of numpy the module calls, followed by the properties of the
    specification that were checked against it.

    Numbers.  The program computes with numpy's float64.  Everything that
    concerns which operations are performed, on which operands, in which
    order, with which shapes and with which exceptions is independent of the
    arithmetic, so the embedding is written over an abstract scalar type
    [F] (class [Scalar]) whose only law is that multiplication commutes, as
    it does in float64; the real numbers are one instance ([R_Scalar]),
    used for concrete evaluations, and float64 itself is another
    ([binary64]: the binary64 floats of the Standard Library, with [np.exp]
    as a parameter), used where a property depends on how float64 rounds.

    Arrays.  A numpy array is a shape together with its entries.  One- and
    two-dimensional arrays are records holding the shape and an indexing
    function; every numpy operation checks shapes the way numpy does and
    raises [ValueError] when numpy does.  [feedforward] and the epochs of
    [learn] are first given on these; [Perceptron_learn] is the whole method
    on nested lists, with the arrays of any dimension that [np.array] makes
    of them. *)

From Stdlib Require Import List Arith ZArith Lia Bool Reals Lra Floats.
Import ListNotations.

Set Implicit Arguments.

(** ** Exceptions and results *)

Inductive exn : Type :=
| ValueError          (* numpy: shapes not aligned / not broadcastable / negative dimension *)
| IndexError          (* list index out of range *)
| ZeroDivisionError   (* integer modulo by zero *)
| TypeError           (* missing required positional argument *)
| MemoryError         (* numpy: an array could not be allocated *)
| AxisError.          (* numpy: axis out of bounds for the dimension of the array *)

Inductive result (A : Type) : Type :=
| Ok (a : A)
| Raise (e : exn).

Arguments Ok {A} a.
Arguments Raise {A} e.

Definition bind {A B : Type} (r : result A) (k : A -> result B) : result B :=
  match r with
  | Ok a => k a
  | Raise e => Raise e
  end.

Notation "x <- r ;; k" := (bind r (fun x => k))
  (at level 61, r at next level, right associativity).

(** Python list indexing [l[i]] for a non-negative index. *)
Definition index {A : Type} (l : list A) (i : nat) : result A :=
  match nth_error l i with
  | Some a => Ok a
  | None => Raise IndexError
  end.

(** [l[-1]] *)
Definition index_last {A : Type} (l : list A) : result A :=
  match l with
  | [] => Raise IndexError
  | _ => index l (length l - 1)
  end.

(** [l[i] = x] on a list known to be long enough (used after [l[i]] was read). *)
Fixpoint setitem {A : Type} (l : list A) (i : nat) (x : A) : list A :=
  match l, i with
  | [], _ => []
  | _ :: t, O => x :: t
  | h :: t, S j => h :: setitem t j x
  end.

(** [range(n)] for a Python int [n]: empty when [n <= 0]. *)
Definition range (n : Z) : list nat := seq 0 (Z.to_nat n).

(** ** Scalars *)

Class Scalar (F : Type) : Type := {
  f0 : F;                       (* 0.0 *)
  f1 : F;                       (* 1.0 *)
  fadd : F -> F -> F;
  fsub : F -> F -> F;
  fmul : F -> F -> F;
  fdiv : F -> F -> F;
  fneg : F -> F;
  fexp : F -> F;                (* np.exp *)
  fabs : F -> F;                (* np.abs *)
  of_nat : nat -> F;            (* int -> float conversion of a count *)
  fmul_comm : forall x y : F, fmul x y = fmul y x
}.

#[export] Instance R_Scalar : Scalar R := {
  f0 := 0%R;
  f1 := 1%R;
  fadd := Rplus;
  fsub := Rminus;
  fmul := Rmult;
  fdiv := Rdiv;
  fneg := Ropp;
  fexp := exp;
  fabs := Rabs;
  of_nat := INR;
  fmul_comm := Rmult_comm
}.

(** float64 as the binary64 floats of Rocq, with their IEEE 754 operations.
    [np.exp] is not one of them: numpy takes it from the platform, and it is
    a parameter here. *)
Definition binary64 (np_exp : float -> float) : Scalar float.
Proof.
  refine {| f0 := 0%float;
            f1 := 1%float;
            fadd := PrimFloat.add;
            fsub := PrimFloat.sub;
            fmul := PrimFloat.mul;
            fdiv := PrimFloat.div;
            fneg := PrimFloat.opp;
            fexp := np_exp;
            fabs := PrimFloat.abs;
            of_nat := fun n => PrimFloat.of_uint63 (Uint63.of_Z (Z.of_nat n));
            fmul_comm := _ |}.
  intros x y. apply Prim2SF_inj. rewrite !mul_spec. unfold SF64mul, SFmul.
  destruct (Prim2SF x) as [sx|sx| |sx mx ex]; destruct (Prim2SF y) as [sy|sy| |sy my ey];
    try reflexivity; rewrite (xorb_comm sx sy); try reflexivity.
  rewrite (Pos.mul_comm mx my), (Z.add_comm ex ey). reflexivity.
Defined.

Section Model.

Context {F : Type} {SF : Scalar F}.

(** [def sigmoid(x): return 1 / (1 + np.exp(-x))] *)
Definition sigmoid (x : F) : F := fdiv f1 (fadd f1 (fexp (fneg x))).

(** [def deriv_sigmoid(x): fx = sigmoid(x); return fx * (1 - fx)] *)
Definition deriv_sigmoid (x : F) : F :=
  let fx := sigmoid x in fmul fx (fsub f1 fx).

(** ** numpy arrays *)

Record vector : Type := mkVec { vlen : nat; vget : nat -> F }.

Record matrix : Type := mkMat { nrows : nat; ncols : nat; mget : nat -> nat -> F }.

Inductive ndarray : Type :=
| Arr1 (v : vector)
| Arr2 (m : matrix).

Definition ndim (a : ndarray) : nat :=
  match a with Arr1 _ => 1 | Arr2 _ => 2 end.

(** The length of the last axis: the width of a vector or of the rows of a batch. *)
Definition width (a : ndarray) : nat :=
  match a with Arr1 v => vlen v | Arr2 m => ncols m end.

(** [np.array] on a list of floats and on a rectangular list of lists. *)
Definition np_array1 (l : list F) : vector :=
  mkVec (length l) (fun j => nth j l f0).

Definition np_array2 (l : list (list F)) : matrix :=
  mkMat (length l) (length (hd [] l)) (fun i j => nth j (nth i l []) f0).

(** [a.tolist()] *)
Inductive pylist : Type :=
| List1 (l : list F)
| List2 (l : list (list F)).

Definition vec_tolist (v : vector) : list F := map (vget v) (seq 0 (vlen v)).

Definition mat_tolist (m : matrix) : list (list F) :=
  map (fun i => map (mget m i) (seq 0 (ncols m))) (seq 0 (nrows m)).

Definition tolist (a : ndarray) : pylist :=
  match a with
  | Arr1 v => List1 (vec_tolist v)
  | Arr2 m => List2 (mat_tolist m)
  end.

(** Sum of [f 0 .. f (n-1)], accumulated from [0.0] in index order. *)
Definition fsum (n : nat) (f : nat -> F) : F :=
  fold_left (fun acc k => fadd acc (f k)) (seq 0 n) f0.

(** Broadcasting of one axis: equal lengths, or one of them is 1. *)
Definition bdim (a b : nat) : option nat :=
  if a =? b then Some a
  else if a =? 1 then Some b
  else if b =? 1 then Some a
  else None.

(** Index into an axis of length [d] that may have been stretched. *)
Definition bidx (d i : nat) : nat := if d =? 1 then 0 else i.

(** An elementwise binary operation on two 1-D arrays. *)
Definition vec_binop (op : F -> F -> F) (a b : vector) : result vector :=
  match bdim (vlen a) (vlen b) with
  | Some n => Ok (mkVec n (fun j => op (vget a (bidx (vlen a) j)) (vget b (bidx (vlen b) j))))
  | None => Raise ValueError
  end.

(** An elementwise binary operation on two 2-D arrays. *)
Definition mat_binop (op : F -> F -> F) (a b : matrix) : result matrix :=
  match bdim (nrows a) (nrows b), bdim (ncols a) (ncols b) with
  | Some r, Some c =>
      Ok (mkMat r c (fun i j =>
            op (mget a (bidx (nrows a) i) (bidx (ncols a) j))
               (mget b (bidx (nrows b) i) (bidx (ncols b) j))))
  | _, _ => Raise ValueError
  end.

(** A 1-D array seen as a single row, as broadcasting against a 2-D array does. *)
Definition as_row (v : vector) : matrix := mkMat 1 (vlen v) (fun _ j => vget v j).

(** [m + v] for a 2-D [m] and a 1-D [v]. *)
Definition mat_add_vec (m : matrix) (v : vector) : result matrix :=
  mat_binop fadd m (as_row v).

(** [np.dot(a, b)] for 2-D [a] and [b]. *)
Definition dot (a b : matrix) : result matrix :=
  if ncols a =? nrows b then
    Ok (mkMat (nrows a) (ncols b)
          (fun i j => fsum (ncols a) (fun k => fmul (mget a i k) (mget b k j))))
  else Raise ValueError.

(** [np.dot(v, b)] for 1-D [v] and 2-D [b]. *)
Definition vec_dot (v : vector) (b : matrix) : result vector :=
  if vlen v =? nrows b then
    Ok (mkVec (ncols b) (fun j => fsum (vlen v) (fun k => fmul (vget v k) (mget b k j))))
  else Raise ValueError.

(** [a.T] *)
Definition transpose (a : matrix) : matrix :=
  mkMat (ncols a) (nrows a) (fun i j => mget a j i).

Definition mat_map (f : F -> F) (a : matrix) : matrix :=
  mkMat (nrows a) (ncols a) (fun i j => f (mget a i j)).

Definition vec_map (f : F -> F) (a : vector) : vector :=
  mkVec (vlen a) (fun j => f (vget a j)).

(** [a * s] for a Python scalar [s]. *)
Definition mat_scale (a : matrix) (s : F) : matrix := mat_map (fun x => fmul x s) a.
Definition vec_scale (a : vector) (s : F) : vector := vec_map (fun x => fmul x s) a.

(** [np.mean(a, axis=0)]: the mean of every column, taken over the rows. *)
Definition mean_axis0 (a : matrix) : vector :=
  mkVec (ncols a) (fun j => fdiv (fsum (nrows a) (fun i => mget a i j)) (of_nat (nrows a))).

(** [np.mean(a)] over all entries. *)
Definition mean_all (a : matrix) : F :=
  fdiv (fsum (nrows a) (fun i => fsum (ncols a) (fun j => mget a i j)))
       (of_nat (nrows a * ncols a)).

(** [a += b] in place: [b] must broadcast to the shape of [a], which is kept. *)
Definition mat_iadd (a b : matrix) : result matrix :=
  if ((nrows b =? nrows a) || (nrows b =? 1)) && ((ncols b =? ncols a) || (ncols b =? 1)) then
    Ok (mkMat (nrows a) (ncols a)
          (fun i j => fadd (mget a i j) (mget b (bidx (nrows b) i) (bidx (ncols b) j))))
  else Raise ValueError.

Definition vec_iadd (a b : vector) : result vector :=
  if (vlen b =? vlen a) || (vlen b =? 1) then
    Ok (mkVec (vlen a) (fun j => fadd (vget a j) (vget b (bidx (vlen b) j))))
  else Raise ValueError.

(** The same operations on an array that is 1-D or 2-D, as [feedforward] has it. *)
Definition nd_dot (a : ndarray) (w : matrix) : result ndarray :=
  match a with
  | Arr1 v => r <- vec_dot v w ;; Ok (Arr1 r)
  | Arr2 m => r <- dot m w ;; Ok (Arr2 r)
  end.

Definition nd_add_vec (a : ndarray) (b : vector) : result ndarray :=
  match a with
  | Arr1 v => r <- vec_binop fadd v b ;; Ok (Arr1 r)
  | Arr2 m => r <- mat_add_vec m b ;; Ok (Arr2 r)
  end.

Definition nd_map (f : F -> F) (a : ndarray) : ndarray :=
  match a with
  | Arr1 v => Arr1 (vec_map f v)
  | Arr2 m => Arr2 (mat_map f m)
  end.

(** ** The network *)

Record Perceptron : Type := mkPerceptron {
  _synapses : list matrix;
  _biases : list vector
}.

(** The dimensions numpy takes are machine integers: on a 64-bit platform a
    dimension of [2^63] or more is refused. *)
Definition dim_limit : Z := 2 ^ 63.

(** [np.random.random(shape)]: the generator is a stream of draws [rng] and
    the number of draws already consumed; an array takes its entries in
    row-major order.  A negative dimension and a dimension of [dim_limit] or
    more raise [ValueError].  Whether an array of an accepted shape can then
    be had depends on the machine: [alloc shape] is the exception its
    allocation ends with, if any ([ValueError] when numpy finds the array too
    big, [MemoryError] when the memory is not there); it stands for the array
    and for the temporaries of [2 * a - 1]. *)
Definition random_matrix (rng : nat -> F) (alloc : list Z -> option exn) (pos : nat) (r c : Z)
  : result (matrix * nat) :=
  if ((r <? 0) || (c <? 0) || (dim_limit <=? r) || (dim_limit <=? c))%Z then Raise ValueError
  else
    match alloc [r; c] with
    | Some e => Raise e
    | None =>
        let r' := Z.to_nat r in
        let c' := Z.to_nat c in
        Ok (mkMat r' c' (fun i j => rng (pos + i * c' + j)), pos + r' * c')
    end.

Definition random_vector (rng : nat -> F) (alloc : list Z -> option exn) (pos : nat) (n : Z)
  : result (vector * nat) :=
  if ((n <? 0) || (dim_limit <=? n))%Z then Raise ValueError
  else
    match alloc [n] with
    | Some e => Raise e
    | None =>
        let n' := Z.to_nat n in
        Ok (mkVec n' (fun j => rng (pos + j)), pos + n')
    end.

(** [2 * a - 1] *)
Definition centre (x : F) : F := fsub (fmul (of_nat 2) x) f1.

(** Python integer list indexing, for [layers[i]]. *)
Definition layer_at (layers : list Z) (i : nat) : result Z := index layers i.

(** The body of the loop of [__init__], for the indices [idx] still to run. *)
Fixpoint init_loop (rng : nat -> F) (alloc : list Z -> option exn) (layers : list Z)
         (idx : list nat) (self : Perceptron) (pos : nat) : result (Perceptron * nat) :=
  match idx with
  | [] => Ok (self, pos)
  | i :: rest =>
      a <- layer_at layers i ;;
      b <- layer_at layers (i + 1) ;;
      wp <- random_matrix rng alloc pos a b ;;
      let self1 := mkPerceptron (_synapses self ++ [mat_map centre (fst wp)]) (_biases self) in
      b' <- layer_at layers (i + 1) ;;
      bp <- random_vector rng alloc (snd wp) b' ;;
      let self2 := mkPerceptron (_synapses self1) (_biases self1 ++ [vec_map centre (fst bp)]) in
      init_loop rng alloc layers rest self2 (snd bp)
  end.

(** [Perceptron.__init__(self, layer_1, layer_2, *other_layers)] *)
Definition init (rng : nat -> F) (alloc : list Z -> option exn) (pos : nat)
           (layer_1 layer_2 : Z) (other_layers : list Z) : result (Perceptron * nat) :=
  let layers := [layer_1; layer_2] ++ other_layers in
  init_loop rng alloc layers (range (Z.of_nat (length layers) - 1)) (mkPerceptron [] []) pos.

(** A call of the constructor with the argument list [args]: the signature requires two positional
    arguments, a call with fewer raises [TypeError] before the body runs. *)
Definition Perceptron_call (rng : nat -> F) (alloc : list Z -> option exn) (pos : nat)
           (args : list Z) : result (Perceptron * nat) :=
  match args with
  | layer_1 :: layer_2 :: other_layers => init rng alloc pos layer_1 layer_2 other_layers
  | _ => Raise TypeError
  end.

(** The loop of [feedforward]. *)
Fixpoint feedforward_loop (self : Perceptron) (idx : list nat) (li : ndarray) : result ndarray :=
  match idx with
  | [] => Ok li
  | i :: rest =>
      w <- index (_synapses self) i ;;
      d <- nd_dot li w ;;
      b <- index (_biases self) i ;;
      z <- nd_add_vec d b ;;
      feedforward_loop self rest (nd_map sigmoid z)
  end.

(** [Perceptron.feedforward(self, inp)], [inp] already an array. *)
Definition feedforward (self : Perceptron) (inp : ndarray) : result pylist :=
  let li := inp in
  li' <- feedforward_loop self (range (Z.of_nat (length (_synapses self)))) li ;;
  Ok (tolist li').

(** ** Training *)

(** The forward pass of an epoch: [Si] collects the sums of the layers and
    [Xi] their values. *)
Fixpoint forward_loop (self : Perceptron) (idx : list nat) (Si Xi : list matrix)
  : result (list matrix * list matrix) :=
  match idx with
  | [] => Ok (Si, Xi)
  | i :: rest =>
      x <- index Xi i ;;
      w <- index (_synapses self) i ;;
      d <- dot x w ;;
      b <- index (_biases self) i ;;
      s <- mat_add_vec d b ;;
      let Si' := Si ++ [s] in
      s' <- index_last Si' ;;
      forward_loop self rest Si' (Xi ++ [mat_map sigmoid s'])
  end.

Definition forward (self : Perceptron) (inp : matrix) : result (list matrix * list matrix) :=
  let Si := [inp] in
  s0 <- index_last Si ;;
  let Xi := [mat_map sigmoid s0] in
  forward_loop self (range (Z.of_nat (length (_synapses self)))) Si Xi.

(** [range(start, 0, -1)]: [start, start - 1, ..., 1]. *)
Definition range_down (start : Z) : list nat := rev (seq 1 (Z.to_nat start)).

(** The errors of the hidden layers; [Ei.insert(0, e)] puts [e] in front. *)
Fixpoint backward_loop (self : Perceptron) (idx : list nat) (Ei : list matrix)
  : result (list matrix) :=
  match idx with
  | [] => Ok Ei
  | i :: rest =>
      e <- index Ei 0 ;;
      w <- index (_synapses self) i ;;
      d <- dot e (transpose w) ;;
      backward_loop self rest (d :: Ei)
  end.

Definition backward (self : Perceptron) (out : matrix) (Xi : list matrix) : result (list matrix) :=
  x <- index_last Xi ;;
  e <- mat_binop fsub out x ;;
  backward_loop self (range_down (Z.of_nat (length Xi) - 2)) [e].

(** [dw] of one index: [grad = np.multiply(Ei[i], deriv_sigmoid(Si[i + 1]))],
    [dw = np.dot(grad.T, Xi[i]).T]. *)
Definition delta (Ei Si Xi : list matrix) (i : nat) : result matrix :=
  e <- index Ei i ;;
  s <- index Si (i + 1) ;;
  grad <- mat_binop fmul e (mat_map deriv_sigmoid s) ;;
  x <- index Xi i ;;
  d <- dot (transpose grad) x ;;
  Ok (transpose d).

(** The update loop.  The arrays of the network are modified in place, so an
    exception leaves the network as the updates before it made it: the
    function returns the network together with the exception, if any. *)
Fixpoint update_loop (Ei Si Xi : list matrix) (learning_rate : F) (idx : list nat)
         (self : Perceptron) : Perceptron * option exn :=
  match idx with
  | [] => (self, None)
  | i :: rest =>
      match delta Ei Si Xi i with
      | Raise e => (self, Some e)
      | Ok dw =>
          match (w <- index (_synapses self) i ;; mat_iadd w (mat_scale dw learning_rate)) with
          | Raise e => (self, Some e)
          | Ok w' =>
              let self1 := mkPerceptron (setitem (_synapses self) i w') (_biases self) in
              match (b <- index (_biases self1) i ;;
                     vec_iadd b (vec_scale (mean_axis0 dw) learning_rate)) with
              | Raise e => (self1, Some e)
              | Ok b' =>
                  let self2 := mkPerceptron (_synapses self1) (setitem (_biases self1) i b') in
                  update_loop Ei Si Xi learning_rate rest self2
              end
          end
      end
  end.

(** The report at the end of an epoch: the values printed (none or one).
    [epoch % err_print_frequency] is only evaluated when [err_print] holds. *)
Definition report (Ei : list matrix) (epoch : nat) (err_print : bool) (err_print_frequency : Z)
  : result (list F) :=
  if err_print then
    if (err_print_frequency =? 0)%Z then Raise ZeroDivisionError
    else if (Z.of_nat epoch mod err_print_frequency =? 0)%Z then
      e <- index_last Ei ;; Ok [mean_all (mat_map fabs e)]
    else Ok []
  else Ok [].

(** The body of the loop over the epochs. *)
Definition epoch_body (self : Perceptron) (inp out : matrix) (learning_rate : F)
           (err_print : bool) (err_print_frequency : Z) (epoch : nat)
  : Perceptron * result (list F) :=
  match (sx <- forward self inp ;;
         Ei <- backward self out (snd sx) ;;
         Ok (fst sx, snd sx, Ei)) with
  | Raise e => (self, Raise e)
  | Ok (Si, Xi, Ei) =>
      match update_loop Ei Si Xi learning_rate
                        (range (Z.of_nat (length (_synapses self)))) self with
      | (self', Some e) => (self', Raise e)
      | (self', None) => (self', report Ei epoch err_print err_print_frequency)
      end
  end.

(** What a call of [learn] leaves behind: the network, the values printed and
    the exception that ended it, if one did. *)
Record outcome : Type := mkOutcome {
  network : Perceptron;
  printed : list F;
  raised : option exn
}.

Fixpoint learn_loop (inp out : matrix) (learning_rate : F) (err_print : bool)
         (err_print_frequency : Z) (epochs : list nat) (self : Perceptron) (log : list F)
  : outcome :=
  match epochs with
  | [] => mkOutcome self log None
  | epoch :: rest =>
      match epoch_body self inp out learning_rate err_print err_print_frequency epoch with
      | (self', Raise e) => mkOutcome self' log (Some e)
      | (self', Ok p) =>
          learn_loop inp out learning_rate err_print err_print_frequency rest self' (log ++ p)
      end
  end.

(** [Perceptron.learn(self, inp, out, epochs, learning_rate, err_print,
    err_print_frequency)] for [inp] and [out] that are 2-D arrays already:
    [np.array] in lines 93 and 94 gives them back as they are.  The method on
    nested lists is [Perceptron_learn], further down. *)
Definition learn (self : Perceptron) (inp out : matrix) (epochs : Z) (learning_rate : F)
           (err_print : bool) (err_print_frequency : Z) : outcome :=
  learn_loop inp out learning_rate err_print err_print_frequency (range epochs) self [].

(** ** The properties of the specification, as predicates on the model *)

(** The shapes at index [i]: [weights[i]] has shape
    [(layer_sizes[i], layer_sizes[i+1])] and [biases[i]] has length
    [layer_sizes[i+1]]. *)
Definition layer_shape (layer_sizes : list nat) (self : Perceptron) (i : nat) : Prop :=
  exists w b,
    nth_error (_synapses self) i = Some w /\
    nth_error (_biases self) i = Some b /\
    nrows w = nth i layer_sizes 0 /\
    ncols w = nth (i + 1) layer_sizes 0 /\
    vlen b = nth (i + 1) layer_sizes 0.

(** The network has [k] weight matrices and [k] bias vectors, of the right shapes. *)
Definition shapes_upto (layer_sizes : list nat) (k : nat) (self : Perceptron) : Prop :=
  length (_synapses self) = k /\
  length (_biases self) = k /\
  forall i, i < k -> layer_shape layer_sizes self i.

(** The shape invariants for the layer sizes [layer_sizes]:
    [len(weights) == len(biases) == len(layer_sizes) - 1] and the shapes at
    every index. *)
Definition shapes_ok (layer_sizes : list nat) (self : Perceptron) : Prop :=
  shapes_upto layer_sizes (length layer_sizes - 1) self.

(** [a' = sigmoid(a . w + b)], entry by entry; a vector gives a vector and a
    batch gives a batch with as many rows. *)
Definition is_layer_output (a : ndarray) (w : matrix) (b : vector) (a' : ndarray) : Prop :=
  match a, a' with
  | Arr1 v, Arr1 v' =>
      vlen v' = ncols w /\
      forall j, j < ncols w ->
        vget v' j =
        sigmoid (fadd (fsum (vlen v) (fun k => fmul (vget v k) (mget w k j))) (vget b j))
  | Arr2 m, Arr2 m' =>
      nrows m' = nrows m /\ ncols m' = ncols w /\
      forall r j, r < nrows m -> j < ncols w ->
        mget m' r j =
        sigmoid (fadd (fsum (ncols m) (fun k => fmul (mget m r k) (mget w k j))) (vget b j))
  | _, _ => False
  end.

(** [acts] is [a_k, a_(k+1), ...] with [a_(i+1) = sigmoid(a_i . weights[i] + biases[i])]. *)
Fixpoint recurrence (self : Perceptron) (k : nat) (acts : list ndarray) : Prop :=
  match acts with
  | a :: ((a' :: _) as tl) =>
      (exists w b, nth_error (_synapses self) k = Some w /\
                   nth_error (_biases self) k = Some b /\
                   is_layer_output a w b a') /\
      recurrence self (S k) tl
  | _ => True
  end.

(** [s = x . w + b], the bias added to every row. *)
Definition is_layer_sum (x w : matrix) (b : vector) (s : matrix) : Prop :=
  nrows s = nrows x /\ ncols s = ncols w /\
  forall r c, r < nrows x -> c < ncols w ->
    mget s r c = fadd (fsum (ncols x) (fun k => fmul (mget x r k) (mget w k c))) (vget b c).

(** [Si], [Xi] from index [k] on: [S_(i+1) = X_i . weights[i] + biases[i]] and
    [X_(i+1) = sigmoid(S_(i+1))]. *)
Fixpoint forward_chain (self : Perceptron) (k : nat) (Si Xi : list matrix) : Prop :=
  match Si, Xi with
  | _ :: ((s' :: _) as Si'), x :: ((x' :: _) as Xi') =>
      (exists w b, nth_error (_synapses self) k = Some w /\
                   nth_error (_biases self) k = Some b /\
                   is_layer_sum x w b s') /\
      x' = mat_map sigmoid s' /\
      forward_chain self (S k) Si' Xi'
  | _, _ => True
  end.

(** [e = t - x], entry by entry. *)
Definition is_residual (t x e : matrix) : Prop :=
  nrows e = nrows x /\ ncols e = ncols x /\
  forall r c, r < nrows x -> c < ncols x -> mget e r c = fsub (mget t r c) (mget x r c).

(** [e = e' . w^T], with no other factor. *)
Definition is_backprop (e' w e : matrix) : Prop :=
  nrows e = nrows e' /\ ncols e = nrows w /\
  forall r c, r < nrows e' -> c < nrows w ->
    mget e r c = fsum (ncols e') (fun k => fmul (mget e' r k) (mget w c k)).

(** [Ei] holds the errors of the layers [k, k+1, ...]: each is the next one
    times the transposed weights between the two layers. *)
Fixpoint backward_chain (self : Perceptron) (k : nat) (Ei : list matrix) : Prop :=
  match Ei with
  | e :: ((e' :: _) as tl) =>
      (exists w, nth_error (_synapses self) k = Some w /\ is_backprop e' w e) /\
      backward_chain self (S k) tl
  | _ => True
  end.

(** Entry [(r, c)] of [dw = x^T . grad] for [grad = e * sigmoid'(s)], the
    product taken entry by entry: a sum over the samples (the rows of [x]). *)
Definition spec_dw (x e s : matrix) (r c : nat) : F :=
  fsum (nrows x) (fun k => fmul (mget x k r) (fmul (mget e k c) (deriv_sigmoid (mget s k c)))).

(** [w' = w + learning_rate . dw] *)
Definition is_weight_update (w : matrix) (learning_rate : F) (x e s w' : matrix) : Prop :=
  nrows w' = nrows w /\ ncols w' = ncols w /\
  forall r c, r < nrows w -> c < ncols w ->
    mget w' r c = fadd (mget w r c) (fmul learning_rate (spec_dw x e s r c)).

(** The mean of column [c] of [dw] over its rows, that is over the units of
    the layer the weights start from: what [np.mean(dw, axis=0)] is. *)
Definition mean_over_rows (x e s : matrix) (c : nat) : F :=
  fdiv (fsum (ncols x) (fun r => spec_dw x e s r c)) (of_nat (ncols x)).

(** The mean over the samples as the specification words it: the same column
    of [dw], averaged over the sample axis, of length [nrows x]. *)
Definition mean_over_samples (x e s : matrix) (c : nat) : F :=
  fdiv (fsum (ncols x) (fun r => spec_dw x e s r c)) (of_nat (nrows x)).

(** [b' = b + learning_rate . mean c] for a mean [mean]. *)
Definition is_bias_update (b : vector) (learning_rate : F) (mean : nat -> F) (b' : vector)
  : Prop :=
  vlen b' = vlen b /\
  forall c, c < vlen b -> vget b' c = fadd (vget b c) (fmul learning_rate (mean c)).

(** One index of the update of an epoch, from the values of the forward pass
    and the errors. *)
Definition updates_at (self self' : Perceptron) (learning_rate : F)
           (Si Xi Ei : list matrix) (mean : matrix -> matrix -> matrix -> nat -> F) (i : nat)
  : Prop :=
  exists w b w' b' x e s,
    nth_error (_synapses self) i = Some w /\ nth_error (_biases self) i = Some b /\
    nth_error (_synapses self') i = Some w' /\ nth_error (_biases self') i = Some b' /\
    nth_error Xi i = Some x /\ nth_error Ei i = Some e /\ nth_error Si (i + 1) = Some s /\
    is_weight_update w learning_rate x e s w' /\
    is_bias_update b learning_rate (mean x e s) b'.

(** The data of a training call fit the network: as many target rows as
    input rows, of the widths of the first and of the last layer. *)
Definition data_fit (layer_sizes : list nat) (inp out : matrix) : Prop :=
  ncols inp = nth 0 layer_sizes 0 /\
  nrows out = nrows inp /\
  ncols out = nth (length layer_sizes - 1) layer_sizes 0.

(** The data on which an epoch runs to its end: numpy stretches a target
    axis of length one. *)
Definition data_run (layer_sizes : list nat) (inp out : matrix) : Prop :=
  ncols inp = nth 0 layer_sizes 0 /\
  (nrows out = nrows inp \/ nrows out = 1) /\
  (ncols out = nth (length layer_sizes - 1) layer_sizes 0 \/ ncols out = 1).

(** The arrays of [l] belong to the layers [k, k+1, ...]: each has [m] rows
    and the width of its layer. *)
Fixpoint layers_shaped (m : nat) (layer_sizes : list nat) (k : nat) (l : list matrix) : Prop :=
  match l with
  | [] => True
  | x :: tl =>
      nrows x = m /\ ncols x = nth k layer_sizes 0 /\ layers_shaped m layer_sizes (S k) tl
  end.

(** The weights at index [i] after an epoch: [weights[i] + learning_rate . dw_i]
    with [dw_i = X_i^T . (E_(i+1) * sigmoid'(S_(i+1)))]; [Ei[i]] is the error
    [E_(i+1)] of layer [i + 1]. *)
Definition weights_updated_at (self self' : Perceptron) (learning_rate : F)
           (Si Xi Ei : list matrix) (i : nat) : Prop :=
  exists w w' x e s,
    nth_error (_synapses self) i = Some w /\
    nth_error (_synapses self') i = Some w' /\
    nth_error Xi i = Some x /\ nth_error Ei i = Some e /\ nth_error Si (i + 1) = Some s /\
    is_weight_update w learning_rate x e s w'.

(** The biases at index [i] after an epoch: [biases[i] + learning_rate . mean],
    for a mean [mean] of [dw_i]. *)
Definition biases_updated_at (self self' : Perceptron) (learning_rate : F)
           (Si Xi Ei : list matrix) (mean : matrix -> matrix -> matrix -> nat -> F) (i : nat)
  : Prop :=
  exists b b' x e s,
    nth_error (_biases self) i = Some b /\
    nth_error (_biases self') i = Some b' /\
    nth_error Xi i = Some x /\ nth_error Ei i = Some e /\ nth_error Si (i + 1) = Some s /\
    is_bias_update b learning_rate (mean x e s) b'.

(** ** The statements about whole calls *)

(** [feedforward] computes the activations [acts] by the recurrence, from the
    raw input, and returns the last one: of the width of the last layer, a
    vector for a vector and a batch for a batch. *)
Definition evaluates_by_recurrence (layer_sizes : list nat) (self : Perceptron)
           (inp : ndarray) : Prop :=
  exists acts out,
    length acts = length layer_sizes /\
    hd_error acts = Some inp /\
    recurrence self 0 acts /\
    last acts inp = out /\
    feedforward self inp = Ok (tolist out) /\
    width out = nth (length layer_sizes - 1) layer_sizes 0 /\
    ndim out = ndim inp.

(** The forward pass of an epoch starts from [sigmoid(inp)] and follows the
    recurrence; its last value is what [feedforward] returns on
    [sigmoid(inp)], while [feedforward] on [inp] starts from [inp] itself. *)
Definition trains_from_sigmoid_of_input (layer_sizes : list nat) (self : Perceptron)
           (inp : matrix) : Prop :=
  exists Si Xi,
    forward self inp = Ok (Si, Xi) /\
    length Si = length layer_sizes /\
    length Xi = length layer_sizes /\
    hd_error Si = Some inp /\
    hd_error Xi = Some (mat_map sigmoid inp) /\
    forward_chain self 0 Si Xi /\
    feedforward self (Arr2 (mat_map sigmoid inp)) = Ok (tolist (Arr2 (last Xi inp))) /\
    exists acts,
      hd_error acts = Some (Arr2 inp) /\
      recurrence self 0 acts /\
      feedforward self (Arr2 inp) = Ok (tolist (last acts (Arr2 inp))).

(** An epoch computes the residual of the last layer, carries it back through
    the transposed weights and adds [learning_rate . dw_i] to every weight
    matrix. *)
Definition epoch_backpropagates (layer_sizes : list nat) (self : Perceptron)
           (inp out : matrix) (learning_rate : F) (err_print : bool)
           (err_print_frequency : Z) (epoch : nat) : Prop :=
  exists Si Xi Ei,
    forward self inp = Ok (Si, Xi) /\
    backward self out Xi = Ok Ei /\
    length Ei = length layer_sizes - 1 /\
    (exists x e,
        nth_error Xi (length layer_sizes - 1) = Some x /\
        nth_error Ei (length layer_sizes - 2) = Some e /\
        is_residual out x e) /\
    backward_chain self 1 Ei /\
    forall i, i < length layer_sizes - 1 ->
      weights_updated_at self
        (fst (epoch_body self inp out learning_rate err_print err_print_frequency epoch))
        learning_rate Si Xi Ei i.

(** An epoch adds [learning_rate . mean(dw_i)] to every bias vector, for the
    mean [mean]. *)
Definition epoch_updates_biases (layer_sizes : list nat) (self : Perceptron)
           (inp out : matrix) (learning_rate : F) (err_print : bool)
           (err_print_frequency : Z) (epoch : nat)
           (mean : matrix -> matrix -> matrix -> nat -> F) : Prop :=
  exists Si Xi Ei,
    forward self inp = Ok (Si, Xi) /\
    backward self out Xi = Ok Ei /\
    forall i, i < length layer_sizes - 1 ->
      biases_updated_at self
        (fst (epoch_body self inp out learning_rate err_print err_print_frequency epoch))
        learning_rate Si Xi Ei mean i.

(** ** Further notions *)

(** [m[r]], row [r] of a batch as a vector. *)
Definition row (m : matrix) (r : nat) : vector :=
  mkVec (ncols m) (fun j => mget m r j).

(** The vector [v] has the entries of row [r] of [a]. *)
Definition same_row (r : nat) (a : matrix) (v : vector) : Prop :=
  vlen v = ncols a /\ forall j, j < ncols a -> vget v j = vget (row a r) j.

(** The number of draws [__init__] takes from the generator for the indices
    [k, ..., k + n - 1]: the entries of [weights[i]] and of [biases[i]]. *)
Definition draws (layer_sizes : list nat) (k n : nat) : nat :=
  list_sum (map (fun i => nth i layer_sizes 0 * nth (i + 1) layer_sizes 0
                          + nth (i + 1) layer_sizes 0)
                (seq k n)).

(** The epochs of [epochs] at which a report is printed. *)
Definition report_epochs (err_print_frequency : Z) (epochs : list nat) : list nat :=
  filter (fun e => (Z.of_nat e mod err_print_frequency =? 0)%Z) epochs.

(** Every component of what [feedforward] returns for a vector of finite
    numbers of the right width lies strictly between [0.0] and [1.0], for
    the order [lt] of the scalars. *)
Definition outputs_strictly_inside (lt : F -> F -> Prop) (finite : F -> Prop) : Prop :=
  forall (layer_sizes : list nat) (self : Perceptron) (v : vector) (l : list F),
    2 <= length layer_sizes ->
    shapes_ok layer_sizes self ->
    vlen v = nth 0 layer_sizes 0 ->
    (forall j, j < vlen v -> finite (vget v j)) ->
    feedforward self (Arr1 v) = Ok (List1 l) ->
    Forall (fun y => lt f0 y /\ lt y f1) l.

(** The sizes numpy takes as dimensions. *)
Definition sizes_valid (layers : list Z) : Prop :=
  forall z, In z layers -> (0 <= z < dim_limit)%Z.

(** Every array of the constructor can be allocated: [weights[i]] and
    [biases[i]] for every index [i]. *)
Definition allocates (alloc : list Z -> option exn) (layers : list Z) : Prop :=
  forall i, i < length layers - 1 ->
    alloc [nth i layers 0%Z; nth (i + 1) layers 0%Z] = None /\
    alloc [nth (i + 1) layers 0%Z] = None.

(** ** [learn] on nested lists *)

(** The arrays [np.array] makes of nested lists, and those the operations of
    [learn] make of them: of dimension zero (a number), one or two. *)
Inductive array : Type :=
| A0 (x : F)
| A1 (v : vector)
| A2 (m : matrix).

(** [np.array(l)] for a list of lists of numbers (numpy 1.24 and later): the
    empty list gives the empty 1-D array, rows of one length give a 2-D
    array, and rows of different lengths raise [ValueError]. *)
Definition np_array (l : list (list F)) : result array :=
  match l with
  | [] => Ok (A1 (np_array1 []))
  | r :: rest =>
      if forallb (fun r' => length r' =? length r) rest then Ok (A2 (np_array2 l))
      else Raise ValueError
  end.

(** The rows of [l] have one length. *)
Definition rectangular (l : list (list F)) : Prop :=
  forall r r', In r l -> In r' l -> length r = length r'.

Definition arr_map (f : F -> F) (a : array) : array :=
  match a with
  | A0 x => A0 (f x)
  | A1 v => A1 (vec_map f v)
  | A2 m => A2 (mat_map f m)
  end.

(** An elementwise binary operation with broadcasting: a number goes with
    every entry, a 1-D array with every row. *)
Definition arr_binop (op : F -> F -> F) (a b : array) : result array :=
  match a, b with
  | A0 x, A0 y => Ok (A0 (op x y))
  | A0 x, A1 v => Ok (A1 (vec_map (op x) v))
  | A0 x, A2 m => Ok (A2 (mat_map (op x) m))
  | A1 v, A0 y => Ok (A1 (vec_map (fun t => op t y) v))
  | A2 m, A0 y => Ok (A2 (mat_map (fun t => op t y) m))
  | A1 u, A1 v => r <- vec_binop op u v ;; Ok (A1 r)
  | A1 u, A2 m => r <- mat_binop op (as_row u) m ;; Ok (A2 r)
  | A2 m, A1 v => r <- mat_binop op m (as_row v) ;; Ok (A2 r)
  | A2 m, A2 n => r <- mat_binop op m n ;; Ok (A2 r)
  end.

(** [np.dot(a, v)] for 2-D [a] and 1-D [v]. *)
Definition mat_vec_dot (a : matrix) (v : vector) : result vector :=
  if ncols a =? vlen v then
    Ok (mkVec (nrows a) (fun i => fsum (ncols a) (fun k => fmul (mget a i k) (vget v k))))
  else Raise ValueError.

(** [np.dot(u, v)] for 1-D [u] and [v]: their inner product, a number. *)
Definition inner (u v : vector) : result F :=
  if vlen u =? vlen v then Ok (fsum (vlen u) (fun k => fmul (vget u k) (vget v k)))
  else Raise ValueError.

(** [np.dot(a, b)]: with a number it is the product entry by entry. *)
Definition arr_dot (a b : array) : result array :=
  match a, b with
  | A0 x, _ => Ok (arr_map (fun t => fmul x t) b)
  | _, A0 y => Ok (arr_map (fun t => fmul t y) a)
  | A1 u, A1 v => r <- inner u v ;; Ok (A0 r)
  | A1 u, A2 m => r <- vec_dot u m ;; Ok (A1 r)
  | A2 m, A1 v => r <- mat_vec_dot m v ;; Ok (A1 r)
  | A2 m, A2 n => r <- dot m n ;; Ok (A2 r)
  end.

(** [a.T]: only a 2-D array changes. *)
Definition arr_T (a : array) : array :=
  match a with
  | A2 m => A2 (transpose m)
  | _ => a
  end.

(** [np.mean(a, axis=0)]: a number has no axis [0]. *)
Definition arr_mean_axis0 (a : array) : result array :=
  match a with
  | A0 _ => Raise AxisError
  | A1 v => Ok (A0 (fdiv (fsum (vlen v) (vget v)) (of_nat (vlen v))))
  | A2 m => Ok (A1 (mean_axis0 m))
  end.

(** [np.mean(a)] *)
Definition arr_mean_all (a : array) : F :=
  match a with
  | A0 x => fdiv x (of_nat 1)
  | A1 v => fdiv (fsum (vlen v) (vget v)) (of_nat (vlen v))
  | A2 m => mean_all m
  end.

(** [w += d] for a 2-D [w]. *)
Definition mat_iadd_arr (w : matrix) (d : array) : result matrix :=
  match d with
  | A0 x => Ok (mat_map (fun t => fadd t x) w)
  | A1 v => mat_iadd w (as_row v)
  | A2 m => mat_iadd w m
  end.

(** [b += d] for a 1-D [b]: a 2-D [d] does not broadcast to it. *)
Definition vec_iadd_arr (b : vector) (d : array) : result vector :=
  match d with
  | A0 x => Ok (vec_map (fun t => fadd t x) b)
  | A1 v => vec_iadd b v
  | A2 _ => Raise ValueError
  end.

Fixpoint forward_loop_nd (self : Perceptron) (idx : list nat) (Si Xi : list array)
  : result (list array * list array) :=
  match idx with
  | [] => Ok (Si, Xi)
  | i :: rest =>
      x <- index Xi i ;;
      w <- index (_synapses self) i ;;
      d <- arr_dot x (A2 w) ;;
      b <- index (_biases self) i ;;
      s <- arr_binop fadd d (A1 b) ;;
      let Si' := Si ++ [s] in
      s' <- index_last Si' ;;
      forward_loop_nd self rest Si' (Xi ++ [arr_map sigmoid s'])
  end.

Definition forward_nd (self : Perceptron) (inp : array) : result (list array * list array) :=
  let Si := [inp] in
  s0 <- index_last Si ;;
  let Xi := [arr_map sigmoid s0] in
  forward_loop_nd self (range (Z.of_nat (length (_synapses self)))) Si Xi.

Fixpoint backward_loop_nd (self : Perceptron) (idx : list nat) (Ei : list array)
  : result (list array) :=
  match idx with
  | [] => Ok Ei
  | i :: rest =>
      e <- index Ei 0 ;;
      w <- index (_synapses self) i ;;
      d <- arr_dot e (A2 (transpose w)) ;;
      backward_loop_nd self rest (d :: Ei)
  end.

Definition backward_nd (self : Perceptron) (out : array) (Xi : list array)
  : result (list array) :=
  x <- index_last Xi ;;
  e <- arr_binop fsub out x ;;
  backward_loop_nd self (range_down (Z.of_nat (length Xi) - 2)) [e].

Definition delta_nd (Ei Si Xi : list array) (i : nat) : result array :=
  e <- index Ei i ;;
  s <- index Si (i + 1) ;;
  grad <- arr_binop fmul e (arr_map deriv_sigmoid s) ;;
  x <- index Xi i ;;
  d <- arr_dot (arr_T grad) x ;;
  Ok (arr_T d).

Fixpoint update_loop_nd (Ei Si Xi : list array) (learning_rate : F) (idx : list nat)
         (self : Perceptron) : Perceptron * option exn :=
  match idx with
  | [] => (self, None)
  | i :: rest =>
      match delta_nd Ei Si Xi i with
      | Raise e => (self, Some e)
      | Ok dw =>
          match (w <- index (_synapses self) i ;;
                 mat_iadd_arr w (arr_map (fun x => fmul x learning_rate) dw)) with
          | Raise e => (self, Some e)
          | Ok w' =>
              let self1 := mkPerceptron (setitem (_synapses self) i w') (_biases self) in
              match (b <- index (_biases self1) i ;;
                     m <- arr_mean_axis0 dw ;;
                     vec_iadd_arr b (arr_map (fun x => fmul x learning_rate) m)) with
              | Raise e => (self1, Some e)
              | Ok b' =>
                  let self2 := mkPerceptron (_synapses self1) (setitem (_biases self1) i b') in
                  update_loop_nd Ei Si Xi learning_rate rest self2
              end
          end
      end
  end.

Definition report_nd (Ei : list array) (epoch : nat) (err_print : bool)
           (err_print_frequency : Z) : result (list F) :=
  if err_print then
    if (err_print_frequency =? 0)%Z then Raise ZeroDivisionError
    else if (Z.of_nat epoch mod err_print_frequency =? 0)%Z then
      e <- index_last Ei ;; Ok [arr_mean_all (arr_map fabs e)]
    else Ok []
  else Ok [].

Definition epoch_body_nd (self : Perceptron) (inp out : array) (learning_rate : F)
           (err_print : bool) (err_print_frequency : Z) (epoch : nat)
  : Perceptron * result (list F) :=
  match (sx <- forward_nd self inp ;;
         Ei <- backward_nd self out (snd sx) ;;
         Ok (fst sx, snd sx, Ei)) with
  | Raise e => (self, Raise e)
  | Ok (Si, Xi, Ei) =>
      match update_loop_nd Ei Si Xi learning_rate
                           (range (Z.of_nat (length (_synapses self)))) self with
      | (self', Some e) => (self', Raise e)
      | (self', None) => (self', report_nd Ei epoch err_print err_print_frequency)
      end
  end.

Fixpoint learn_loop_nd (inp out : array) (learning_rate : F) (err_print : bool)
         (err_print_frequency : Z) (epochs : list nat) (self : Perceptron) (log : list F)
  : outcome :=
  match epochs with
  | [] => mkOutcome self log None
  | epoch :: rest =>
      match epoch_body_nd self inp out learning_rate err_print err_print_frequency epoch with
      | (self', Raise e) => mkOutcome self' log (Some e)
      | (self', Ok p) =>
          learn_loop_nd inp out learning_rate err_print err_print_frequency rest self'
            (log ++ p)
      end
  end.

(** [Perceptron.learn(self, inp, out, epochs, learning_rate, err_print,
    err_print_frequency)] for [inp] and [out] given as lists of lists, as
    they are annotated: lines 93 and 94 make arrays of them, and the loop
    runs on these.  On 2-D arrays the loop is that of [learn]. *)
Definition Perceptron_learn (self : Perceptron) (inp out : list (list F)) (epochs : Z)
           (learning_rate : F) (err_print : bool) (err_print_frequency : Z) : outcome :=
  match np_array inp with
  | Raise e => mkOutcome self [] (Some e)
  | Ok inp' =>
      match np_array out with
      | Raise e => mkOutcome self [] (Some e)
      | Ok out' =>
          learn_loop_nd inp' out' learning_rate err_print err_print_frequency
            (range epochs) self []
      end
  end.

End Model.

Arguments vector F : clear implicits.
Arguments matrix F : clear implicits.
Arguments ndarray F : clear implicits.
Arguments pylist F : clear implicits.
Arguments Perceptron F : clear implicits.
Arguments outcome F : clear implicits.
Arguments array F : clear implicits.

(** ** Concrete networks and data over the real numbers *)

(** The network with layers [1, 1], weight [w] and bias [b]. *)
Definition net11 (w b : R) : Perceptron R :=
  mkPerceptron [np_array2 [[w]]] [np_array1 [b]].

(** Two samples [0] with target [1] each, and the single target row [[1]]. *)
Definition two_zeros : matrix R := np_array2 [[0%R]; [0%R]].
Definition two_ones : matrix R := np_array2 [[1%R]; [1%R]].
Definition one_one : matrix R := np_array2 [[1%R]].

(** A batch of two rows of width two, too wide for [net11]. *)
Definition two_wide : matrix R := np_array2 [[0%R; 0%R]; [0%R; 0%R]].

(** The generator that always draws [1/2]. *)
Definition rng_half : nat -> R := fun _ => (1 / 2)%R.

(** The order and the finite numbers of float64. *)
Definition float_lt (x y : float) : Prop := PrimFloat.ltb x y = true.
Definition float_finite (x : float) : Prop := PrimFloat.is_finite x = true.

(** The network with layers [1, 1], weight [-1.0] and bias [0.0], in float64. *)
Definition steep_net (np_exp : float -> float) : Perceptron float :=
  mkPerceptron [@np_array2 float (binary64 np_exp) [[(-1)%float]]]
               [@np_array1 float (binary64 np_exp) [0%float]].

(** A machine on which every allocation succeeds. *)
Definition alloc_any : list Z -> option exn := fun _ => None.

(** * Properties *)

Unset Implicit Arguments.

Section Properties.

Context {F : Type} {SF : Scalar F}.

(** ** Lists, ranges and broadcasting *)

Lemma index_Some (A : Type) (l : list A) (i : nat) (a : A) :
  nth_error l i = Some a -> index l i = Ok a.
Proof. unfold index; intros ->; reflexivity. Qed.

Lemma index_last_app (A : Type) (l : list A) (a : A) : index_last (l ++ [a]) = Ok a.
Proof.
  unfold index_last.
  destruct (l ++ [a]) eqn:E.
  - destruct l; discriminate.
  - rewrite <- E. apply index_Some.
    rewrite length_app; simpl.
    replace (length l + 1 - 1) with (length l) by lia.
    rewrite nth_error_app2 by lia.
    rewrite Nat.sub_diag; reflexivity.
Qed.

Lemma last_cons_indep (A : Type) (l : list A) (a d d' : A) :
  last (a :: l) d = last (a :: l) d'.
Proof.
  revert a; induction l as [|h t IH]; intros a; [reflexivity|].
  change (last (h :: t) d = last (h :: t) d'). apply IH.
Qed.

Lemma range_of_nat (n : nat) : range (Z.of_nat n) = seq 0 n.
Proof. unfold range; rewrite Nat2Z.id; reflexivity. Qed.

Lemma range_nonpos (n : Z) : (n <= 0)%Z -> range n = [].
Proof.
  intros Hn; unfold range.
  replace (Z.to_nat n) with 0 by lia; reflexivity.
Qed.

Lemma bidx_lt (d i : nat) : i < d -> bidx d i = i.
Proof.
  unfold bidx; intros Hi.
  destruct (Nat.eqb_spec d 1); [lia | reflexivity].
Qed.

Lemma bdim_same (n : nat) : bdim n n = Some n.
Proof. unfold bdim; rewrite Nat.eqb_refl; reflexivity. Qed.

Lemma bdim_one_r (n : nat) : bdim n 1 = Some n.
Proof.
  unfold bdim.
  destruct (Nat.eqb_spec n 1) as [->|Hn]; [reflexivity|].
  simpl; reflexivity.
Qed.

Lemma bdim_one_l (n : nat) : bdim 1 n = Some n.
Proof.
  unfold bdim.
  destruct (Nat.eqb_spec 1 n) as [<-|Hn]; reflexivity.
Qed.

Lemma bdim_Some_cases (a b n : nat) :
  bdim a b = Some n -> (a = b /\ n = a) \/ (a = 1 /\ n = b) \/ (b = 1 /\ n = a).
Proof.
  unfold bdim.
  destruct (Nat.eqb_spec a b); [intros [= <-]; auto|].
  destruct (Nat.eqb_spec a 1); [intros [= <-]; auto|].
  destruct (Nat.eqb_spec b 1); [intros [= <-]; auto|discriminate].
Qed.

Lemma setitem_length (A : Type) (l : list A) (i : nat) (x : A) :
  length (setitem l i x) = length l.
Proof.
  revert i; induction l as [|h t IH]; intros [|j]; simpl; auto.
Qed.

Lemma setitem_same (A : Type) (l : list A) (i : nat) (x : A) :
  i < length l -> nth_error (setitem l i x) i = Some x.
Proof.
  revert i; induction l as [|h t IH]; intros [|j]; simpl; intros Hi; try lia; auto.
  apply IH; lia.
Qed.

Lemma setitem_other (A : Type) (l : list A) (i j : nat) (x : A) :
  i <> j -> nth_error (setitem l i x) j = nth_error l j.
Proof.
  revert i j; induction l as [|h t IH]; intros [|i] [|j]; simpl; intros Hij;
    try reflexivity; try congruence.
  apply IH; lia.
Qed.

(** ** numpy operations on fitting shapes *)

Lemma dot_ok (a b : matrix F) :
  ncols a = nrows b ->
  dot a b = Ok (mkMat (nrows a) (ncols b)
                  (fun i j => fsum (ncols a) (fun k => fmul (mget a i k) (mget b k j)))).
Proof. unfold dot; intros ->; rewrite Nat.eqb_refl; reflexivity. Qed.

Lemma dot_fail (a b : matrix F) : ncols a <> nrows b -> dot a b = Raise ValueError.
Proof. unfold dot; intros Hn; destruct (Nat.eqb_spec (ncols a) (nrows b)); [contradiction|reflexivity]. Qed.

Lemma vec_dot_fail (v : vector F) (b : matrix F) :
  vlen v <> nrows b -> vec_dot v b = Raise ValueError.
Proof. unfold vec_dot; intros Hn; destruct (Nat.eqb_spec (vlen v) (nrows b)); [contradiction|reflexivity]. Qed.

Lemma mat_add_vec_ok (m : matrix F) (v : vector F) :
  ncols m = vlen v ->
  exists s, mat_add_vec m v = Ok s /\ nrows s = nrows m /\ ncols s = ncols m /\
    forall r c, r < nrows m -> c < ncols m -> mget s r c = fadd (mget m r c) (vget v c).
Proof.
  intros Hc. unfold mat_add_vec, mat_binop; simpl.
  rewrite bdim_one_r, <- Hc, bdim_same.
  eexists; split; [reflexivity|]; simpl; repeat split.
  intros r c Hr Hcc. rewrite !bidx_lt by lia. reflexivity.
Qed.

Lemma layer_sum_ok (x w : matrix F) (b : vector F) :
  ncols x = nrows w -> ncols w = vlen b ->
  exists s, (d <- dot x w ;; mat_add_vec d b) = Ok s /\ is_layer_sum x w b s.
Proof.
  intros Hxw Hwb. rewrite (dot_ok _ _ Hxw); simpl.
  destruct (mat_add_vec_ok
              (mkMat (nrows x) (ncols w)
                 (fun i j => fsum (ncols x) (fun k => fmul (mget x i k) (mget w k j)))) b Hwb)
    as (s & Hs & Hr & Hc & Hg).
  simpl in *. exists s; split; [exact Hs|].
  repeat split; auto.
Qed.

Lemma nd_layer_ok (a : ndarray F) (w : matrix F) (b : vector F) :
  width a = nrows w -> ncols w = vlen b ->
  exists z, (d <- nd_dot a w ;; nd_add_vec d b) = Ok z /\
            is_layer_output a w b (nd_map sigmoid z) /\
            width (nd_map sigmoid z) = ncols w /\
            ndim (nd_map sigmoid z) = ndim a.
Proof.
  intros Haw Hwb. destruct a as [v|m]; simpl in *.
  - unfold vec_dot. rewrite Haw, Nat.eqb_refl; simpl.
    unfold vec_binop; simpl. rewrite Hwb, bdim_same; simpl.
    eexists; split; [reflexivity|]; simpl. repeat split; auto.
    intros j Hj. rewrite !bidx_lt by lia. reflexivity.
  - destruct (layer_sum_ok m w b Haw Hwb) as (s & Hs & Hr & Hc & Hg).
    destruct (dot m w) as [d|e]; simpl in *; [|discriminate].
    rewrite Hs; simpl. eexists; split; [reflexivity|]; simpl.
    repeat split; auto.
    intros r j Hr' Hj. rewrite Hg by assumption. reflexivity.
Qed.

(** ** The shape invariants at one index *)

Lemma shapes_ok_at (layer_sizes : list nat) (self : Perceptron F) (i : nat) :
  shapes_ok layer_sizes self -> i < length layer_sizes - 1 ->
  exists w b,
    nth_error (_synapses self) i = Some w /\
    nth_error (_biases self) i = Some b /\
    nrows w = nth i layer_sizes 0 /\
    ncols w = nth (i + 1) layer_sizes 0 /\
    vlen b = nth (i + 1) layer_sizes 0.
Proof. intros (_ & _ & H) Hi; exact (H i Hi). Qed.

Lemma shapes_ok_lengths (layer_sizes : list nat) (self : Perceptron F) :
  shapes_ok layer_sizes self ->
  length (_synapses self) = length layer_sizes - 1 /\
  length (_biases self) = length layer_sizes - 1.
Proof. intros (H1 & H2 & _); auto. Qed.

(** ** feedforward *)

Lemma feedforward_loop_ok (layer_sizes : list nat) (self : Perceptron F) :
  shapes_ok layer_sizes self ->
  forall n k li,
    k + n = length layer_sizes - 1 ->
    width li = nth k layer_sizes 0 ->
    exists acts out,
      feedforward_loop self (seq k n) li = Ok out /\
      length acts = S n /\
      hd_error acts = Some li /\
      last acts li = out /\
      recurrence self k acts /\
      width out = nth (k + n) layer_sizes 0 /\
      ndim out = ndim li.
Proof.
  intros Hok. induction n as [|n IH]; intros k li Hk Hw.
  - exists [li], li. simpl. rewrite Nat.add_0_r. auto 10.
  - destruct (shapes_ok_at _ _ k Hok) as (w & b & Hw_k & Hb_k & Hr & Hc & Hl); [lia|].
    destruct (nd_layer_ok li w b) as (z & Hz & Hout & Hwz & Hnz); [congruence|congruence|].
    destruct (IH (S k) (nd_map sigmoid z)) as (acts & out & Hloop & Hlen & Hhd & Hlast & Hrec & Hwo & Hno).
    { lia. }
    { rewrite Hwz, Hc. f_equal; lia. }
    exists (li :: acts), out.
    simpl. rewrite (index_Some _ _ _ _ Hw_k); simpl.
    destruct (nd_dot li w) as [d|e]; simpl in Hz; [|discriminate].
    simpl. rewrite (index_Some _ _ _ _ Hb_k); simpl. rewrite Hz; simpl.
    destruct acts as [|a' tl]; [discriminate|].
    simpl in Hhd; injection Hhd as ->.
    split; [exact Hloop|].
    split; [simpl in *; lia|].
    split; [reflexivity|].
    split; [rewrite <- Hlast; apply last_cons_indep|].
    split; [split; [exists w, b; auto|exact Hrec]|].
    split; [rewrite Hwo; f_equal; lia|congruence].
Qed.

(** [feedforward] on an input of the width of the first layer. *)
Lemma feedforward_ok (layer_sizes : list nat) (self : Perceptron F) (inp : ndarray F) :
  shapes_ok layer_sizes self ->
  width inp = nth 0 layer_sizes 0 ->
  exists acts out,
    length acts = S (length layer_sizes - 1) /\
    hd_error acts = Some inp /\
    recurrence self 0 acts /\
    last acts inp = out /\
    feedforward self inp = Ok (tolist out) /\
    width out = nth (length layer_sizes - 1) layer_sizes 0 /\
    ndim out = ndim inp.
Proof.
  intros Hok Hw.
  destruct (feedforward_loop_ok _ _ Hok (length layer_sizes - 1) 0 inp)
    as (acts & out & Hloop & Hlen & Hhd & Hlast & Hrec & Hwo & Hno); [lia|exact Hw|].
  exists acts, out. unfold feedforward.
  destruct (shapes_ok_lengths _ _ Hok) as [-> _].
  rewrite range_of_nat, Hloop. simpl. auto 10.
Qed.

(** ** Construction *)

Lemma nth_to_nat (layers : list Z) (i : nat) :
  nth i (map Z.to_nat layers) 0 = Z.to_nat (nth i layers 0%Z).
Proof. change 0 with (Z.to_nat 0%Z) at 1. apply map_nth. Qed.

Lemma layer_at_ok (layers : list Z) (i : nat) :
  i < length layers -> layer_at layers i = Ok (nth i layers 0%Z).
Proof.
  intros Hi. unfold layer_at. apply index_Some. apply nth_error_nth'. exact Hi.
Qed.

Lemma random_matrix_ok (rng : nat -> F) (alloc : list Z -> option exn) (pos : nat) (r c : Z) :
  (0 <= r < dim_limit)%Z -> (0 <= c < dim_limit)%Z -> alloc [r; c] = None ->
  random_matrix rng alloc pos r c =
    Ok (mkMat (Z.to_nat r) (Z.to_nat c) (fun i j => rng (pos + i * Z.to_nat c + j)),
        pos + Z.to_nat r * Z.to_nat c).
Proof.
  intros Hr Hc Ha. unfold random_matrix.
  destruct (Z.ltb_spec r 0); [lia|]. destruct (Z.ltb_spec c 0); [lia|].
  destruct (Z.leb_spec dim_limit r); [lia|]. destruct (Z.leb_spec dim_limit c); [lia|].
  simpl. rewrite Ha. reflexivity.
Qed.

Lemma random_matrix_invalid (rng : nat -> F) (alloc : list Z -> option exn) (pos : nat)
      (r c : Z) :
  (r < 0 \/ dim_limit <= r \/ c < 0 \/ dim_limit <= c)%Z ->
  random_matrix rng alloc pos r c = Raise ValueError.
Proof.
  intros H. unfold random_matrix.
  destruct (Z.ltb_spec r 0); [reflexivity|]. destruct (Z.ltb_spec c 0); [reflexivity|].
  destruct (Z.leb_spec dim_limit r); [reflexivity|].
  destruct (Z.leb_spec dim_limit c); [reflexivity|]. lia.
Qed.

Lemma random_matrix_cases (rng : nat -> F) (alloc : list Z -> option exn) (pos : nat)
      (r c : Z) :
  ((r < 0 \/ dim_limit <= r \/ c < 0 \/ dim_limit <= c)%Z /\
   random_matrix rng alloc pos r c = Raise ValueError) \/
  ((0 <= r < dim_limit)%Z /\ (0 <= c < dim_limit)%Z /\
   exists e, alloc [r; c] = Some e /\ random_matrix rng alloc pos r c = Raise e) \/
  ((0 <= r < dim_limit)%Z /\ (0 <= c < dim_limit)%Z /\ alloc [r; c] = None /\
   random_matrix rng alloc pos r c =
     Ok (mkMat (Z.to_nat r) (Z.to_nat c) (fun i j => rng (pos + i * Z.to_nat c + j)),
         pos + Z.to_nat r * Z.to_nat c)).
Proof.
  destruct (Z_lt_dec r 0); [left; split; [lia|apply random_matrix_invalid; lia]|].
  destruct (Z_le_dec dim_limit r); [left; split; [lia|apply random_matrix_invalid; lia]|].
  destruct (Z_lt_dec c 0); [left; split; [lia|apply random_matrix_invalid; lia]|].
  destruct (Z_le_dec dim_limit c); [left; split; [lia|apply random_matrix_invalid; lia]|].
  right. destruct (alloc [r; c]) as [e|] eqn:Ha.
  - left. split; [lia|]. split; [lia|]. exists e. split; [reflexivity|].
    unfold random_matrix.
    destruct (Z.ltb_spec r 0); [lia|]. destruct (Z.ltb_spec c 0); [lia|].
    destruct (Z.leb_spec dim_limit r); [lia|]. destruct (Z.leb_spec dim_limit c); [lia|].
    simpl. rewrite Ha. reflexivity.
  - right. split; [lia|]. split; [lia|]. split; [reflexivity|].
    apply random_matrix_ok; [lia|lia|exact Ha].
Qed.

Lemma random_vector_ok (rng : nat -> F) (alloc : list Z -> option exn) (pos : nat) (n : Z) :
  (0 <= n < dim_limit)%Z -> alloc [n] = None ->
  random_vector rng alloc pos n =
    Ok (mkVec (Z.to_nat n) (fun j => rng (pos + j)), pos + Z.to_nat n).
Proof.
  intros Hn Ha. unfold random_vector.
  destruct (Z.ltb_spec n 0); [lia|]. destruct (Z.leb_spec dim_limit n); [lia|].
  simpl. rewrite Ha. reflexivity.
Qed.

Lemma random_vector_cases (rng : nat -> F) (alloc : list Z -> option exn) (pos : nat) (n : Z) :
  (0 <= n < dim_limit)%Z ->
  (exists e, alloc [n] = Some e /\ random_vector rng alloc pos n = Raise e) \/
  (alloc [n] = None /\
   random_vector rng alloc pos n =
     Ok (mkVec (Z.to_nat n) (fun j => rng (pos + j)), pos + Z.to_nat n)).
Proof.
  intros Hn. destruct (alloc [n]) as [e|] eqn:Ha.
  - left. exists e. split; [reflexivity|]. unfold random_vector.
    destruct (Z.ltb_spec n 0); [lia|]. destruct (Z.leb_spec dim_limit n); [lia|].
    simpl. rewrite Ha. reflexivity.
  - right. split; [reflexivity|]. apply random_vector_ok; assumption.
Qed.

Lemma shapes_upto_snoc (layers : list Z) (k : nat) (self : Perceptron F)
      (w : matrix F) (b : vector F) :
  shapes_upto (map Z.to_nat layers) k self ->
  nrows w = Z.to_nat (nth k layers 0%Z) ->
  ncols w = Z.to_nat (nth (k + 1) layers 0%Z) ->
  vlen b = Z.to_nat (nth (k + 1) layers 0%Z) ->
  shapes_upto (map Z.to_nat layers) (S k)
    (mkPerceptron (_synapses self ++ [w]) (_biases self ++ [b])).
Proof.
  intros (Hs & Hbs & Hall) Hr Hc Hl. unfold shapes_upto; simpl.
  split; [rewrite length_app; simpl; lia|].
  split; [rewrite length_app; simpl; lia|].
  intros i Hi. unfold layer_shape; simpl.
  destruct (Nat.eq_dec i k) as [->|Hne].
  - exists w, b.
    split; [rewrite nth_error_app2 by lia; rewrite Hs, Nat.sub_diag; reflexivity|].
    split; [rewrite nth_error_app2 by lia; rewrite Hbs, Nat.sub_diag; reflexivity|].
    rewrite !nth_to_nat. auto.
  - destruct (Hall i) as (w0 & b0 & Hw & Hb' & Hshape); [lia|].
    exists w0, b0.
    split; [rewrite nth_error_app1 by lia; exact Hw|].
    split; [rewrite nth_error_app1 by lia; exact Hb'|].
    exact Hshape.
Qed.

Lemma draws_succ (layer_sizes : list nat) (k n : nat) :
  draws layer_sizes k (S n) =
  nth k layer_sizes 0 * nth (k + 1) layer_sizes 0 + nth (k + 1) layer_sizes 0
  + draws layer_sizes (S k) n.
Proof. reflexivity. Qed.


(** What a successful run of the loop has done. *)
Lemma init_loop_Ok_inv (rng : nat -> F) (alloc : list Z -> option exn) (layers : list Z) :
  forall n k self pos self' pos',
    k + n = length layers - 1 ->
    1 <= length layers ->
    init_loop rng alloc layers (seq k n) self pos = Ok (self', pos') ->
    shapes_upto (map Z.to_nat layers) k self ->
    shapes_upto (map Z.to_nat layers) (k + n) self' /\
    pos' = pos + draws (map Z.to_nat layers) k n /\
    (forall i, k <= i < k + n ->
       (0 <= nth i layers 0 < dim_limit)%Z /\ (0 <= nth (i + 1) layers 0 < dim_limit)%Z /\
       alloc [nth i layers 0%Z; nth (i + 1) layers 0%Z] = None /\
       alloc [nth (i + 1) layers 0%Z] = None).
Proof.
  induction n as [|n IH]; intros k self pos self' pos' Hk Hlen H Hinv.
  - simpl in H. injection H as <- <-. rewrite Nat.add_0_r.
    split; [exact Hinv|]. split; [unfold draws; simpl; lia|]. intros i Hi. lia.
  - simpl in H. rewrite !layer_at_ok in H by lia. simpl in H.
    destruct (random_matrix_cases rng alloc pos (nth k layers 0%Z) (nth (k + 1) layers 0%Z))
      as [(_ & Hm)|[(_ & _ & e & _ & Hm)|(Ha & Hb & Ha1 & Hm)]];
      rewrite Hm in H; simpl in H; try discriminate.
    destruct (random_vector_cases rng alloc
                (pos + Z.to_nat (nth k layers 0%Z) * Z.to_nat (nth (k + 1) layers 0%Z))
                (nth (k + 1) layers 0%Z) Hb) as [(e & _ & Hv)|(Ha2 & Hv)];
      rewrite Hv in H; simpl in H; try discriminate.
    apply IH in H; [|lia|lia|apply shapes_upto_snoc; auto].
    destruct H as (Hinv' & Hpos & Hrest).
    split; [replace (k + S n) with (S k + n) by lia; exact Hinv'|].
    split.
    + rewrite Hpos, draws_succ, !nth_to_nat. lia.
    + intros i Hi. destruct (Nat.eq_dec i k) as [->|Hne]; [auto|].
      apply Hrest. lia.
Qed.


(** ** The forward pass of an epoch *)

Lemma layers_shaped_nth (m : nat) (layer_sizes : list nat) (l : list (matrix F)) :
  forall k j x,
    layers_shaped m layer_sizes k l -> nth_error l j = Some x ->
    nrows x = m /\ ncols x = nth (k + j) layer_sizes 0.
Proof.
  induction l as [|h t IH]; intros k [|j] x Hsh Hn; simpl in *; try discriminate.
  - injection Hn as <-. rewrite Nat.add_0_r. tauto.
  - destruct Hsh as (_ & _ & Hsh). replace (k + S j) with (S k + j) by lia. eauto.
Qed.

Lemma forward_loop_ok (layer_sizes : list nat) (self : Perceptron F) (m : nat) :
  shapes_ok layer_sizes self ->
  forall n k P Q s x,
    k + n = length layer_sizes - 1 ->
    length Q = k ->
    nrows x = m -> ncols x = nth k layer_sizes 0 ->
    exists Si2 Xi2,
      forward_loop self (seq k n) (P ++ [s]) (Q ++ [x]) = Ok (P ++ s :: Si2, Q ++ x :: Xi2) /\
      length Si2 = n /\ length Xi2 = n /\
      forward_chain self k (s :: Si2) (x :: Xi2) /\
      layers_shaped m layer_sizes (S k) Si2 /\
      layers_shaped m layer_sizes (S k) Xi2.
Proof.
  intros Hok. induction n as [|n IH]; intros k P Q s x Hk HQ Hr Hc.
  - exists [], []. simpl. auto 10.
  - destruct (shapes_ok_at _ _ k Hok) as (w & b & Hw_k & Hb_k & Hwr & Hwc & Hbl); [lia|].
    destruct (layer_sum_ok x w b) as (s' & Hs' & Hsum); [congruence|congruence|].
    destruct Hsum as (Hsr & Hsc & Hsg).
    destruct (IH (S k) (P ++ [s]) (Q ++ [x]) s' (mat_map sigmoid s'))
      as (Si3 & Xi3 & Hloop & HlS & HlX & Hchain & HshS & HshX).
    { lia. }
    { rewrite length_app; simpl; lia. }
    { simpl; congruence. }
    { simpl. rewrite Hsc, Hwc. f_equal; lia. }
    exists (s' :: Si3), (mat_map sigmoid s' :: Xi3).
    simpl.
    assert (Hx : index (Q ++ [x]) k = Ok x).
    { apply index_Some. rewrite nth_error_app2 by lia.
      rewrite HQ, Nat.sub_diag. reflexivity. }
    rewrite Hx; simpl. rewrite (index_Some _ _ _ _ Hw_k); simpl.
    destruct (dot x w) as [d|e]; simpl in Hs'; [|discriminate].
    simpl. rewrite (index_Some _ _ _ _ Hb_k); simpl. rewrite Hs'; simpl.
    rewrite index_last_app; simpl. rewrite Hloop.
    rewrite <- !app_assoc. simpl.
    split; [reflexivity|].
    split; [lia|]. split; [lia|].
    split; [split; [exists w, b; repeat split; auto|split; [reflexivity|exact Hchain]]|].
    split.
    + split; [congruence|]. split; [rewrite Hsc, Hwc; f_equal; lia|exact HshS].
    + split; [simpl; congruence|]. split; [simpl; rewrite Hsc, Hwc; f_equal; lia|exact HshX].
Qed.

Lemma forward_ok (layer_sizes : list nat) (self : Perceptron F) (inp : matrix F) :
  shapes_ok layer_sizes self ->
  ncols inp = nth 0 layer_sizes 0 ->
  exists Si2 Xi2,
    forward self inp = Ok (inp :: Si2, mat_map sigmoid inp :: Xi2) /\
    length Si2 = length layer_sizes - 1 /\ length Xi2 = length layer_sizes - 1 /\
    forward_chain self 0 (inp :: Si2) (mat_map sigmoid inp :: Xi2) /\
    layers_shaped (nrows inp) layer_sizes 0 (inp :: Si2) /\
    layers_shaped (nrows inp) layer_sizes 0 (mat_map sigmoid inp :: Xi2).
Proof.
  intros Hok Hc.
  destruct (forward_loop_ok _ _ (nrows inp) Hok (length layer_sizes - 1) 0 [] [] inp
              (mat_map sigmoid inp))
    as (Si2 & Xi2 & Hloop & HlS & HlX & Hchain & HshS & HshX); try reflexivity; try lia.
  { exact Hc. }
  exists Si2, Xi2. unfold forward.
  destruct (shapes_ok_lengths _ _ Hok) as [-> _].
  rewrite range_of_nat. change (index_last [inp]) with (Ok inp).
  simpl in Hloop. simpl bind. rewrite Hloop.
  simpl. auto 10.
Qed.

Lemma forward_fail (layer_sizes : list nat) (self : Perceptron F) (inp : matrix F) :
  shapes_ok layer_sizes self ->
  2 <= length layer_sizes ->
  ncols inp <> nth 0 layer_sizes 0 ->
  forward self inp = Raise ValueError.
Proof.
  intros Hok HL Hc.
  destruct (shapes_ok_at _ _ 0 Hok) as (w & b & Hw & Hb & Hwr & Hwc & Hbl); [lia|].
  unfold forward.
  destruct (shapes_ok_lengths _ _ Hok) as [-> _].
  rewrite range_of_nat.
  destruct (length layer_sizes - 1) as [|n] eqn:E; [lia|].
  change (index_last [inp]) with (Ok inp). simpl.
  change (index [mat_map sigmoid inp] 0) with (Ok (mat_map sigmoid inp)). simpl.
  rewrite (index_Some _ _ _ _ Hw); simpl.
  rewrite dot_fail; [reflexivity|]. simpl. congruence.
Qed.

(** ** The errors of an epoch *)

Lemma index_last_nth (A : Type) (l : list A) (x : A) :
  nth_error l (length l - 1) = Some x -> index_last l = Ok x.
Proof.
  intros H. unfold index_last. destruct l as [|h t]; [discriminate|].
  apply index_Some. exact H.
Qed.

Lemma nth_error_in_range (A : Type) (l : list A) (i : nat) :
  i < length l -> exists x, nth_error l i = Some x.
Proof.
  intros Hi. destruct (nth_error l i) as [x|] eqn:E; [eauto|].
  apply nth_error_None in E. lia.
Qed.

Lemma range_down_succ (k : nat) : rev (seq 1 (S k)) = S k :: rev (seq 1 k).
Proof. rewrite seq_S, rev_app_distr. reflexivity. Qed.

Lemma range_down_of_len (n : nat) : range_down (Z.of_nat n - 2) = rev (seq 1 (n - 2)).
Proof. unfold range_down. f_equal. f_equal. lia. Qed.

Lemma residual_run (out x : matrix F) (m c : nat) :
  nrows x = m -> ncols x = c ->
  (nrows out = m \/ nrows out = 1) ->
  (ncols out = c \/ ncols out = 1) ->
  exists e, mat_binop fsub out x = Ok e /\ nrows e = m /\ ncols e = c /\
            (nrows out = m -> ncols out = c -> is_residual out x e).
Proof.
  intros Hr Hc Hro Hco. unfold mat_binop.
  assert (Hb1 : bdim (nrows out) (nrows x) = Some m).
  { rewrite Hr. destruct Hro as [->| ->]; [apply bdim_same|apply bdim_one_l]. }
  assert (Hb2 : bdim (ncols out) (ncols x) = Some c).
  { rewrite Hc. destruct Hco as [->| ->]; [apply bdim_same|apply bdim_one_l]. }
  rewrite Hb1, Hb2. eexists; split; [reflexivity|]. simpl.
  split; [reflexivity|]. split; [reflexivity|].
  intros Hro' Hco'. unfold is_residual; simpl.
  split; [auto|]. split; [auto|].
  intros r j Hr' Hj. rewrite !bidx_lt by lia. reflexivity.
Qed.

Lemma backward_loop_ok (layer_sizes : list nat) (self : Perceptron F) (m : nat) :
  shapes_ok layer_sizes self ->
  forall k e tl,
    S k <= length layer_sizes - 1 ->
    backward_chain self (S k) (e :: tl) ->
    layers_shaped m layer_sizes (S k) (e :: tl) ->
    exists pre,
      backward_loop self (rev (seq 1 k)) (e :: tl) = Ok (pre ++ e :: tl) /\
      length pre = k /\
      backward_chain self 1 (pre ++ e :: tl) /\
      layers_shaped m layer_sizes 1 (pre ++ e :: tl).
Proof.
  intros Hok. induction k as [|k IH]; intros e tl Hk Hchain Hsh.
  - exists []. simpl. auto.
  - rewrite range_down_succ. simpl.
    destruct (shapes_ok_at _ _ (S k) Hok) as (w & b & Hw_k & Hb_k & Hwr & Hwc & Hbl); [lia|].
    change (index (e :: tl) 0) with (Ok e). simpl.
    rewrite (index_Some _ _ _ _ Hw_k); simpl.
    destruct Hsh as (Her & Hec & Hsh).
    rewrite dot_ok by (simpl; rewrite Hec, Hwc; f_equal; lia).
    simpl.
    match goal with
    | |- context [backward_loop self _ (?d :: e :: tl)] =>
        destruct (IH d (e :: tl)) as (pre & Hloop & Hlen & Hchain' & Hsh')
    end.
    + lia.
    + split; [|exact Hchain]. exists w. split; [exact Hw_k|].
      unfold is_backprop; simpl. auto.
    + simpl. auto.
    + exists (pre ++ [mkMat (nrows e) (nrows w)
                        (fun i j => fsum (ncols e)
                                      (fun k0 => fmul (mget e i k0) (mget w j k0)))]).
      rewrite <- !app_assoc. simpl.
      split; [exact Hloop|]. split; [rewrite length_app; simpl; lia|].
      split; assumption.
Qed.

Lemma backward_loop_fail (layer_sizes : list nat) (self : Perceptron F) :
  shapes_ok layer_sizes self ->
  forall k e tl,
    S k <= length layer_sizes - 1 ->
    1 <= k ->
    ncols e <> nth (S k) layer_sizes 0 ->
    backward_loop self (rev (seq 1 k)) (e :: tl) = Raise ValueError.
Proof.
  intros Hok k e tl Hk Hk1 Hne.
  destruct k as [|k]; [lia|].
  rewrite range_down_succ. simpl.
  destruct (shapes_ok_at _ _ (S k) Hok) as (w & b & Hw_k & Hb_k & Hwr & Hwc & Hbl); [lia|].
  change (index (e :: tl) 0) with (Ok e). simpl.
  rewrite (index_Some _ _ _ _ Hw_k); simpl.
  rewrite dot_fail; [reflexivity|].
  simpl. rewrite Hwc. replace (S k + 1) with (S (S k)) by lia. exact Hne.
Qed.

Lemma backward_from_residual (layer_sizes : list nat) (self : Perceptron F) (m : nat)
      (out : matrix F) (Xi : list (matrix F)) (x e : matrix F) :
  shapes_ok layer_sizes self ->
  2 <= length layer_sizes ->
  length Xi = length layer_sizes ->
  nth_error Xi (length layer_sizes - 1) = Some x ->
  mat_binop fsub out x = Ok e ->
  nrows e = m -> ncols e = nth (length layer_sizes - 1) layer_sizes 0 ->
  exists pre,
    backward self out Xi = Ok (pre ++ [e]) /\
    length pre = length layer_sizes - 2 /\
    backward_chain self 1 (pre ++ [e]) /\
    layers_shaped m layer_sizes 1 (pre ++ [e]).
Proof.
  intros Hok HL HlX Hx He Her Hec.
  destruct (backward_loop_ok _ _ m Hok (length layer_sizes - 2) e [])
    as (pre & Hloop & Hlen & Hchain & Hsh).
  { lia. }
  { simpl. exact I. }
  { simpl. split; [exact Her|]. split; [|exact I].
    rewrite Hec. f_equal. lia. }
  exists pre. unfold backward.
  rewrite (index_last_nth _ Xi x) by (rewrite HlX; exact Hx).
  simpl. rewrite He. simpl.
  rewrite range_down_of_len, HlX. auto.
Qed.

(** ** The update of an epoch *)

Lemma fold_left_ext_seq (g h : F -> nat -> F) (n : nat) :
  forall start acc,
    (forall a k, start <= k < start + n -> g a k = h a k) ->
    fold_left g (seq start n) acc = fold_left h (seq start n) acc.
Proof.
  induction n as [|n IH]; intros start acc Hgh; [reflexivity|].
  simpl. rewrite Hgh by lia. apply IH.
  intros a k Hk. apply Hgh. lia.
Qed.

Lemma fsum_ext (n : nat) (f g : nat -> F) :
  (forall k, k < n -> f k = g k) -> fsum n f = fsum n g.
Proof.
  intros Hfg. unfold fsum. apply fold_left_ext_seq.
  intros a k Hk. rewrite Hfg by lia. reflexivity.
Qed.

Lemma delta_ok (Ei Si Xi : list (matrix F)) (i m c : nat) (e s x : matrix F) :
  nth_error Ei i = Some e -> nth_error Si (i + 1) = Some s -> nth_error Xi i = Some x ->
  nrows e = m -> nrows s = m -> nrows x = m ->
  ncols e = c -> ncols s = c ->
  exists dw,
    delta Ei Si Xi i = Ok dw /\
    nrows dw = ncols x /\ ncols dw = c /\
    forall r j, j < c -> mget dw r j = spec_dw x e s r j.
Proof.
  intros He Hs Hx Her Hsr Hxr Hec Hsc. unfold delta.
  rewrite (index_Some _ _ _ _ He), (index_Some _ _ _ _ Hs). simpl.
  unfold mat_binop. simpl.
  rewrite Her, Hsr, Hec, Hsc, !bdim_same. simpl.
  rewrite (index_Some _ _ _ _ Hx). simpl.
  rewrite dot_ok by (simpl; congruence). simpl.
  eexists; split; [reflexivity|]. simpl.
  split; [reflexivity|]. split; [reflexivity|].
  intros r j Hj. unfold spec_dw. rewrite Hxr.
  apply fsum_ext. intros k Hk.
  rewrite !bidx_lt by lia. apply fmul_comm.
Qed.

Lemma update_step (w dw : matrix F) (b : vector F) (learning_rate : F) (x e s : matrix F) :
  nrows dw = nrows w -> ncols dw = ncols w -> vlen b = ncols w -> nrows w = ncols x ->
  (forall r j, j < ncols w -> mget dw r j = spec_dw x e s r j) ->
  exists w' b',
    mat_iadd w (mat_scale dw learning_rate) = Ok w' /\
    vec_iadd b (vec_scale (mean_axis0 dw) learning_rate) = Ok b' /\
    is_weight_update w learning_rate x e s w' /\
    is_bias_update b learning_rate (mean_over_rows x e s) b'.
Proof.
  intros Hr Hc Hb Hwx Hdw.
  unfold mat_iadd, vec_iadd. simpl.
  rewrite Hr, Hc, Hb, !Nat.eqb_refl. simpl.
  eexists; eexists. split; [reflexivity|]. split; [reflexivity|].
  split.
  - unfold is_weight_update; simpl. split; [reflexivity|]. split; [reflexivity|].
    intros r j Hr' Hj. rewrite !bidx_lt by lia.
    rewrite Hdw by exact Hj. rewrite fmul_comm. reflexivity.
  - unfold is_bias_update; simpl. split; [congruence|].
    intros j Hj. rewrite !bidx_lt by lia.
    unfold mean_over_rows. rewrite <- Hwx.
    rewrite fmul_comm. f_equal. f_equal. f_equal.
    apply fsum_ext. intros r _. apply Hdw. lia.
Qed.

Lemma shapes_ok_setitem (layer_sizes : list nat) (self : Perceptron F) (k : nat)
      (w w' : matrix F) (b b' : vector F) :
  shapes_ok layer_sizes self ->
  nth_error (_synapses self) k = Some w -> nth_error (_biases self) k = Some b ->
  nrows w' = nrows w -> ncols w' = ncols w -> vlen b' = vlen b ->
  shapes_ok layer_sizes
    (mkPerceptron (setitem (_synapses self) k w') (setitem (_biases self) k b')).
Proof.
  intros (Hs & Hb & Hall) Hw Hbk Hr Hc Hl.
  assert (Hk : k < length (_synapses self)) by (apply nth_error_Some; congruence).
  assert (Hk' : k < length (_biases self)) by (apply nth_error_Some; congruence).
  unfold shapes_ok, shapes_upto; simpl. rewrite !setitem_length.
  split; [exact Hs|]. split; [exact Hb|].
  intros i Hi. unfold layer_shape; simpl.
  destruct (Nat.eq_dec k i) as [<-|Hne].
  - exists w', b'. rewrite !setitem_same by assumption.
    destruct (Hall k Hi) as (w0 & b0 & Hw0 & Hb0 & H1 & H2 & H3).
    assert (w0 = w) by congruence. assert (b0 = b) by congruence. subst w0 b0.
    repeat split; congruence.
  - rewrite !setitem_other by assumption. exact (Hall i Hi).
Qed.

Lemma update_loop_ok (layer_sizes : list nat) (self0 : Perceptron F) (m : nat)
      (learning_rate : F) (Si Xi Ei : list (matrix F)) :
  layers_shaped m layer_sizes 0 Si ->
  layers_shaped m layer_sizes 0 Xi ->
  layers_shaped m layer_sizes 1 Ei ->
  length Si = length layer_sizes ->
  length Xi = length layer_sizes ->
  length Ei = length layer_sizes - 1 ->
  forall n k self,
    k + n = length layer_sizes - 1 ->
    shapes_ok layer_sizes self ->
    (forall j, k <= j ->
       nth_error (_synapses self) j = nth_error (_synapses self0) j /\
       nth_error (_biases self) j = nth_error (_biases self0) j) ->
    (forall j, j < k -> updates_at self0 self learning_rate Si Xi Ei mean_over_rows j) ->
    exists self',
      update_loop Ei Si Xi learning_rate (seq k n) self = (self', None) /\
      shapes_ok layer_sizes self' /\
      forall j, j < length layer_sizes - 1 ->
        updates_at self0 self' learning_rate Si Xi Ei mean_over_rows j.
Proof.
  intros HshS HshX HshE HlS HlX HlE.
  induction n as [|n IH]; intros k self Hk Hok Hrest Hdone.
  - exists self. simpl. split; [reflexivity|]. split; [exact Hok|].
    intros j Hj. apply Hdone. lia.
  - destruct (nth_error_in_range _ Ei k) as (e & He); [lia|].
    destruct (nth_error_in_range _ Si (k + 1)) as (s & Hs); [lia|].
    destruct (nth_error_in_range _ Xi k) as (x & Hx); [lia|].
    destruct (layers_shaped_nth _ _ _ _ _ _ HshE He) as (Her & Hec).
    destruct (layers_shaped_nth _ _ _ _ _ _ HshS Hs) as (Hsr & Hsc).
    destruct (layers_shaped_nth _ _ _ _ _ _ HshX Hx) as (Hxr & Hxc).
    simpl in Hsc, Hxc.
    replace (1 + k) with (k + 1) in Hec by lia.
    destruct (shapes_ok_at _ _ k Hok) as (w & b & Hw & Hb & Hwr & Hwc & Hbl); [lia|].
    destruct (delta_ok Ei Si Xi k m (nth (k + 1) layer_sizes 0) e s x)
      as (dw & Hdelta & Hdr & Hdc & Hdw); auto.
    destruct (update_step w dw b learning_rate x e s) as (w' & b' & Hiw & Hib & Hwu & Hbu);
      try congruence.
    { intros r j Hj. apply Hdw. congruence. }
    destruct (IH (S k)
                (mkPerceptron (setitem (_synapses self) k w') (setitem (_biases self) k b')))
      as (self' & Hloop & Hok' & Hall).
    + lia.
    + apply (shapes_ok_setitem _ _ _ w w' b b'); auto.
      * apply Hwu.
      * apply Hwu.
      * apply Hbu.
    + intros j Hj. simpl. rewrite !setitem_other by lia. apply Hrest. lia.
    + intros j Hj.
      assert (Hks : k < length (_synapses self)) by (apply nth_error_Some; congruence).
      assert (Hkb : k < length (_biases self)) by (apply nth_error_Some; congruence).
      destruct (Nat.eq_dec j k) as [->|Hne].
      * destruct (Hrest k (Nat.le_refl k)) as (Hw0 & Hb0).
        exists w, b, w', b', x, e, s. simpl.
        rewrite !setitem_same by assumption.
        repeat split; try congruence; try apply Hwu; try apply Hbu.
      * destruct (Hdone j) as (w1 & b1 & w1' & b1' & x1 & e1 & s1 & H); [lia|].
        exists w1, b1, w1', b1', x1, e1, s1. simpl.
        rewrite !setitem_other by lia. exact H.
    + exists self'. split; [|split; assumption].
      simpl. rewrite Hdelta. rewrite (index_Some _ _ _ _ Hw). simpl. rewrite Hiw.
      simpl. rewrite (index_Some _ _ _ _ Hb). simpl. rewrite Hib. exact Hloop.
Qed.

(** ** One epoch on data that fit *)

Lemma epoch_run (layer_sizes : list nat) (self : Perceptron F) (inp out : matrix F)
      (learning_rate : F) (err_print : bool) (err_print_frequency : Z) (epoch : nat) :
  shapes_ok layer_sizes self ->
  2 <= length layer_sizes ->
  data_run layer_sizes inp out ->
  exists Si Xi Ei self',
    forward self inp = Ok (Si, Xi) /\
    backward self out Xi = Ok Ei /\
    epoch_body self inp out learning_rate err_print err_print_frequency epoch =
      (self', report Ei epoch err_print err_print_frequency) /\
    shapes_ok layer_sizes self' /\
    length Ei = length layer_sizes - 1 /\
    backward_chain self 1 Ei /\
    (exists x e,
        nth_error Xi (length layer_sizes - 1) = Some x /\
        nth_error Ei (length layer_sizes - 2) = Some e /\
        (data_fit layer_sizes inp out -> is_residual out x e)) /\
    (forall j, j < length layer_sizes - 1 ->
       updates_at self self' learning_rate Si Xi Ei mean_over_rows j).
Proof.
  intros Hok HL (Hinp & Hrows & Hcols).
  destruct (forward_ok _ _ inp Hok Hinp) as (Si2 & Xi2 & Hfwd & HlS & HlX & _ & HshS & HshX).
  set (Si := inp :: Si2) in *. set (Xi := mat_map sigmoid inp :: Xi2) in *.
  assert (HlSi : length Si = length layer_sizes) by (unfold Si; simpl; lia).
  assert (HlXi : length Xi = length layer_sizes) by (unfold Xi; simpl; lia).
  destruct (nth_error_in_range _ Xi (length layer_sizes - 1)) as (x & Hx); [lia|].
  destruct (layers_shaped_nth _ _ _ _ _ _ HshX Hx) as (Hxr & Hxc). simpl in Hxc.
  destruct (residual_run out x (nrows inp) (nth (length layer_sizes - 1) layer_sizes 0))
    as (e & He & Her & Hec & Hres); auto.
  destruct (backward_from_residual _ _ (nrows inp) out Xi x e Hok HL HlXi Hx He Her Hec)
    as (pre & Hbwd & Hlpre & Hchain & HshE).
  assert (HlE : length (pre ++ [e]) = length layer_sizes - 1)
    by (rewrite length_app; simpl; lia).
  destruct (update_loop_ok layer_sizes self (nrows inp) learning_rate Si Xi (pre ++ [e])
              HshS HshX HshE HlSi HlXi HlE (length layer_sizes - 1) 0 self)
    as (self' & Hupd & Hok' & Hall); auto.
  { intros j Hj. lia. }
  exists Si, Xi, (pre ++ [e]), self'.
  split; [exact Hfwd|]. split; [exact Hbwd|].
  split.
  { unfold epoch_body. rewrite Hfwd. simpl. rewrite Hbwd. simpl.
    destruct (shapes_ok_lengths _ _ Hok) as [-> _].
    rewrite range_of_nat, Hupd. reflexivity. }
  split; [exact Hok'|]. split; [exact HlE|]. split; [exact Hchain|].
  split; [|exact Hall].
  exists x, e. split; [exact Hx|].
  split.
  { rewrite nth_error_app2 by lia. rewrite Hlpre, Nat.sub_diag. reflexivity. }
  intros (_ & Hr & Hc). apply Hres; assumption.
Qed.

(** ** One epoch on data that do not fit *)

Lemma mat_binop_Raise (op : F -> F -> F) (a b : matrix F) (ex : exn) :
  mat_binop op a b = Raise ex -> ex = ValueError.
Proof.
  unfold mat_binop.
  destruct (bdim (nrows a) (nrows b)); destruct (bdim (ncols a) (ncols b)); congruence.
Qed.

Lemma mat_binop_Ok_inv (op : F -> F -> F) (a b e : matrix F) :
  mat_binop op a b = Ok e ->
  bdim (nrows a) (nrows b) = Some (nrows e) /\ bdim (ncols a) (ncols b) = Some (ncols e).
Proof.
  unfold mat_binop.
  destruct (bdim (nrows a) (nrows b)); destruct (bdim (ncols a) (ncols b)); try discriminate.
  intros [= <-]. simpl. auto.
Qed.

Lemma mat_iadd_fail (a b : matrix F) :
  ncols b <> ncols a -> ncols b <> 1 -> mat_iadd a b = Raise ValueError.
Proof.
  intros H1 H2. unfold mat_iadd.
  destruct (Nat.eqb_spec (ncols b) (ncols a)); [contradiction|].
  destruct (Nat.eqb_spec (ncols b) 1); [contradiction|].
  rewrite andb_false_r. reflexivity.
Qed.

Lemma delta_fail_rows (Ei Si Xi : list (matrix F)) (i : nat) (e s x : matrix F) :
  nth_error Ei i = Some e -> nth_error Si (i + 1) = Some s -> nth_error Xi i = Some x ->
  nrows x = nrows s -> nrows s = 1 -> nrows e <> 1 -> ncols e = ncols s ->
  delta Ei Si Xi i = Raise ValueError.
Proof.
  intros He Hs Hx Hxs Hs1 He1 Hc. unfold delta.
  rewrite (index_Some _ _ _ _ He), (index_Some _ _ _ _ Hs). simpl.
  unfold mat_binop. simpl. rewrite Hs1, bdim_one_r, Hc, bdim_same. simpl.
  rewrite (index_Some _ _ _ _ Hx). simpl.
  rewrite dot_fail; [reflexivity|]. simpl. congruence.
Qed.

Lemma delta_cases (Ei Si Xi : list (matrix F)) (i : nat) (e s x : matrix F) :
  nth_error Ei i = Some e -> nth_error Si (i + 1) = Some s -> nth_error Xi i = Some x ->
  delta Ei Si Xi i = Raise ValueError \/
  exists dw c, delta Ei Si Xi i = Ok dw /\ bdim (ncols e) (ncols s) = Some c /\ ncols dw = c.
Proof.
  intros He Hs Hx. unfold delta.
  rewrite (index_Some _ _ _ _ He), (index_Some _ _ _ _ Hs). simpl.
  destruct (mat_binop fmul e (mat_map deriv_sigmoid s)) as [grad|ex] eqn:Hg; simpl.
  - apply mat_binop_Ok_inv in Hg. destruct Hg as (_ & Hgc). simpl in Hgc.
    rewrite (index_Some _ _ _ _ Hx). simpl.
    unfold dot. simpl. destruct (nrows grad =? nrows x); simpl; [|left; reflexivity].
    right. eexists; eexists. split; [reflexivity|]. simpl. split; [exact Hgc|reflexivity].
  - apply mat_binop_Raise in Hg. subst ex. left; reflexivity.
Qed.

Lemma epoch_fail (layer_sizes : list nat) (self : Perceptron F) (inp out : matrix F)
      (learning_rate : F) (err_print : bool) (err_print_frequency : Z) (epoch : nat) :
  shapes_ok layer_sizes self ->
  2 <= length layer_sizes ->
  ~ data_run layer_sizes inp out ->
  epoch_body self inp out learning_rate err_print err_print_frequency epoch =
    (self, Raise ValueError).
Proof.
  intros Hok HL Hnot. unfold epoch_body.
  destruct (Nat.eq_dec (ncols inp) (nth 0 layer_sizes 0)) as [Hinp|Hinp];
    [|rewrite (forward_fail _ _ _ Hok HL Hinp); reflexivity].
  destruct (forward_ok _ _ inp Hok Hinp) as (Si2 & Xi2 & Hfwd & HlS & HlX & _ & HshS & HshX).
  rewrite Hfwd. simpl.
  set (Si := inp :: Si2) in *. set (Xi := mat_map sigmoid inp :: Xi2) in *.
  assert (HlSi : length Si = length layer_sizes) by (unfold Si; simpl; lia).
  assert (HlXi : length Xi = length layer_sizes) by (unfold Xi; simpl; lia).
  destruct (nth_error_in_range _ Xi (length layer_sizes - 1)) as (x & Hx); [lia|].
  destruct (layers_shaped_nth _ _ _ _ _ _ HshX Hx) as (Hxr & Hxc). simpl in Hxc.
  destruct (nth_error_in_range _ Si (0 + 1)) as (s1 & Hs1); [simpl; lia|].
  destruct (layers_shaped_nth _ _ _ _ _ _ HshS Hs1) as (Hs1r & Hs1c). simpl in Hs1c.
  assert (Hx0 : nth_error Xi 0 = Some (mat_map sigmoid inp)) by reflexivity.
  clearbody Si Xi.
  destruct (shapes_ok_lengths _ _ Hok) as [Hlsyn _].
  destruct (mat_binop fsub out x) as [e|ex] eqn:He.
  2:{ unfold backward. rewrite (index_last_nth _ Xi x) by (rewrite HlXi; exact Hx).
      simpl. rewrite He. simpl. apply mat_binop_Raise in He. subst ex. reflexivity. }
  destruct (mat_binop_Ok_inv _ _ _ _ He) as (Hbr & Hbc).
  rewrite Hxr in Hbr. rewrite Hxc in Hbc.
  destruct (Nat.eq_dec (ncols e) (nth (length layer_sizes - 1) layer_sizes 0)) as [HK|HK].
  - (* the widths fit, the rows do not *)
    destruct (backward_from_residual _ _ (nrows e) out Xi x e Hok HL HlXi Hx He eq_refl HK)
      as (pre & Hbwd & Hlpre & _ & HshE).
    rewrite Hbwd. simpl.
    assert (Hrows : nrows inp = 1 /\ nrows e <> 1).
    { destruct (bdim_Some_cases _ _ _ Hbr) as [(H1 & H2)|[(H1 & H2)|(H1 & H2)]];
        destruct (bdim_Some_cases _ _ _ Hbc) as [(H3 & H4)|[(H3 & H4)|(H3 & H4)]];
        try (exfalso; apply Hnot; unfold data_run;
             repeat split; try assumption; (left; congruence) || (right; congruence));
        try (split; [assumption|]; intros Hone; apply Hnot; unfold data_run;
             repeat split; try assumption; (left; congruence) || (right; congruence)). }
    destruct Hrows as (Hm1 & HM1).
    destruct (nth_error_in_range _ (pre ++ [e]) 0) as (e0 & He0);
      [rewrite length_app; simpl; lia|].
    destruct (layers_shaped_nth _ _ _ _ _ _ HshE He0) as (He0r & He0c). simpl in He0c.
    rewrite Hlsyn, range_of_nat.
    destruct (length layer_sizes - 1) as [|n] eqn:EL; [lia|].
    simpl.
    rewrite (delta_fail_rows (pre ++ [e]) Si Xi 0 e0 s1 (mat_map sigmoid inp));
      auto; simpl; congruence.
  - (* the widths do not fit *)
    assert (Hcols : nth (length layer_sizes - 1) layer_sizes 0 = 1 /\ ncols e <> 1).
    { destruct (bdim_Some_cases _ _ _ Hbc) as [(H3 & H4)|[(H3 & H4)|(H3 & H4)]];
        try congruence. split; [assumption|congruence]. }
    destruct Hcols as (Hnk1 & HK1).
    destruct (Nat.eq_dec (length layer_sizes) 2) as [HL2|HL2].
    + assert (Hbwd : backward self out Xi = Ok [e]).
      { unfold backward. rewrite (index_last_nth _ Xi x) by (rewrite HlXi; exact Hx).
        simpl. rewrite He. simpl. rewrite range_down_of_len, HlXi, HL2. reflexivity. }
      rewrite Hbwd. simpl. rewrite Hlsyn, range_of_nat, HL2. simpl.
      destruct (shapes_ok_at _ _ 0 Hok) as (w & b & Hw & Hb & Hwr & Hwc & Hbl); [lia|].
      destruct (delta_cases [e] Si Xi 0 e s1 (mat_map sigmoid inp) eq_refl Hs1 Hx0)
        as [Hd|(dw & c & Hd & Hbd & Hdc)]; rewrite Hd; [reflexivity|].
      rewrite (index_Some _ _ _ _ Hw). simpl.
      assert (Hs1c' : ncols s1 = 1) by (rewrite Hs1c; rewrite HL2 in Hnk1; exact Hnk1).
      rewrite Hs1c', bdim_one_r in Hbd. injection Hbd as <-.
      rewrite mat_iadd_fail; [reflexivity| |]; simpl; rewrite Hdc.
      * rewrite Hwc. simpl. rewrite HL2 in Hnk1. simpl in Hnk1. congruence.
      * exact HK1.
    + assert (Hbwd : backward self out Xi = Raise ValueError).
      { unfold backward. rewrite (index_last_nth _ Xi x) by (rewrite HlXi; exact Hx).
        simpl. rewrite He. simpl. rewrite range_down_of_len, HlXi.
        apply (backward_loop_fail _ _ Hok); [lia|lia|].
        replace (S (length layer_sizes - 2)) with (length layer_sizes - 1) by lia.
        exact HK. }
      rewrite Hbwd. reflexivity.
Qed.

Lemma updates_at_weights (self self' : Perceptron F) (learning_rate : F)
      (Si Xi Ei : list (matrix F)) (mean : matrix F -> matrix F -> matrix F -> nat -> F)
      (i : nat) :
  updates_at self self' learning_rate Si Xi Ei mean i ->
  weights_updated_at self self' learning_rate Si Xi Ei i.
Proof.
  intros (w & b & w' & b' & x & e & s & H1 & H2 & H3 & H4 & H5 & H6 & H7 & H8 & H9).
  exists w, w', x, e, s. auto 10.
Qed.

Lemma updates_at_biases (self self' : Perceptron F) (learning_rate : F)
      (Si Xi Ei : list (matrix F)) (mean : matrix F -> matrix F -> matrix F -> nat -> F)
      (i : nat) :
  updates_at self self' learning_rate Si Xi Ei mean i ->
  biases_updated_at self self' learning_rate Si Xi Ei mean i.
Proof.
  intros (w & b & w' & b' & x & e & s & H1 & H2 & H3 & H4 & H5 & H6 & H7 & H8 & H9).
  exists b, b', x, e, s. auto 10.
Qed.

Lemma data_fit_run (layer_sizes : list nat) (inp out : matrix F) :
  data_fit layer_sizes inp out -> data_run layer_sizes inp out.
Proof. intros (H1 & H2 & H3). unfold data_run. auto. Qed.

Lemma data_run_dec (layer_sizes : list nat) (inp out : matrix F) :
  data_run layer_sizes inp out \/ ~ data_run layer_sizes inp out.
Proof.
  unfold data_run.
  destruct (Nat.eq_dec (ncols inp) (nth 0 layer_sizes 0));
    destruct (Nat.eq_dec (nrows out) (nrows inp));
    destruct (Nat.eq_dec (nrows out) 1);
    destruct (Nat.eq_dec (ncols out) (nth (length layer_sizes - 1) layer_sizes 0));
    destruct (Nat.eq_dec (ncols out) 1);
    try (left; repeat split; auto; fail);
    right; intros (H1 & [H2|H2] & [H3|H3]); contradiction.
Qed.

(** ** The first activations of training and of evaluation *)

Lemma last_cons (A : Type) (l : list A) (a d : A) : last (a :: l) d = last l a.
Proof.
  destruct l as [|h t]; [reflexivity|].
  change (last (h :: t) d = last (h :: t) a). apply last_cons_indep.
Qed.

Lemma forward_loop_feedforward (self : Perceptron F) :
  forall n k P Q s x Si' Xi',
    length Q = k ->
    forward_loop self (seq k n) (P ++ [s]) (Q ++ [x]) = Ok (Si', Xi') ->
    exists Xi2,
      Xi' = Q ++ x :: Xi2 /\
      feedforward_loop self (seq k n) (Arr2 x) = Ok (Arr2 (last Xi2 x)).
Proof.
  induction n as [|n IH]; intros k P Q s x Si' Xi' HQ H.
  - simpl in H. injection H as <- <-. exists []. auto.
  - simpl in H. simpl.
    assert (Hx : index (Q ++ [x]) k = Ok x).
    { apply index_Some. rewrite nth_error_app2 by lia.
      rewrite HQ, Nat.sub_diag. reflexivity. }
    rewrite Hx in H. simpl in H.
    destruct (index (_synapses self) k) as [w|]; simpl in *; [|discriminate].
    destruct (dot x w) as [d|]; simpl in *; [|discriminate].
    destruct (index (_biases self) k) as [b|]; simpl in *; [|discriminate].
    destruct (mat_add_vec d b) as [s'|]; simpl in *; [|discriminate].
    rewrite index_last_app in H. simpl in H.
    destruct (IH (S k) (P ++ [s]) (Q ++ [x]) s' (mat_map sigmoid s') Si' Xi') as (Xi3 & HXi & Hff).
    + rewrite length_app; simpl; lia.
    + exact H.
    + exists (mat_map sigmoid s' :: Xi3). split.
      * rewrite HXi, <- app_assoc. reflexivity.
      * rewrite last_cons. exact Hff.
Qed.

Lemma forward_feedforward (self : Perceptron F) (inp : matrix F) (Si Xi : list (matrix F)) :
  forward self inp = Ok (Si, Xi) ->
  feedforward self (Arr2 (mat_map sigmoid inp)) = Ok (tolist (Arr2 (last Xi inp))).
Proof.
  unfold forward. change (index_last [inp]) with (Ok inp). simpl bind.
  rewrite range_of_nat. intros H.
  destruct (forward_loop_feedforward self _ 0 [] [] inp (mat_map sigmoid inp) Si Xi eq_refl H)
    as (Xi2 & -> & Hff).
  unfold feedforward. rewrite range_of_nat, Hff.
  simpl bind. simpl app. rewrite last_cons. reflexivity.
Qed.

(** ** The loop over the epochs *)

Lemma report_not_ValueError (Ei : list (matrix F)) (epoch : nat) (err_print : bool)
      (err_print_frequency : Z) :
  report Ei epoch err_print err_print_frequency <> Raise ValueError.
Proof.
  unfold report. destruct err_print; [|discriminate].
  destruct (err_print_frequency =? 0)%Z; [discriminate|].
  destruct (Z.of_nat epoch mod err_print_frequency =? 0)%Z; [|discriminate].
  unfold index_last. destruct Ei as [|h t]; [discriminate|].
  unfold index. destruct (nth_error (h :: t) (length (h :: t) - 1)); discriminate.
Qed.

Lemma learn_loop_fail (layer_sizes : list nat) (self : Perceptron F) (inp out : matrix F)
      (learning_rate : F) (err_print : bool) (err_print_frequency : Z)
      (epoch : nat) (rest : list nat) (log : list F) :
  shapes_ok layer_sizes self ->
  2 <= length layer_sizes ->
  ~ data_run layer_sizes inp out ->
  learn_loop inp out learning_rate err_print err_print_frequency (epoch :: rest) self log =
    mkOutcome self log (Some ValueError).
Proof.
  intros Hok HL Hnot. simpl.
  rewrite (epoch_fail layer_sizes); auto.
Qed.

Lemma learn_loop_run (layer_sizes : list nat) (inp out : matrix F)
      (learning_rate : F) (err_print : bool) (err_print_frequency : Z) :
  2 <= length layer_sizes ->
  data_run layer_sizes inp out ->
  forall epochs self log,
    shapes_ok layer_sizes self ->
    shapes_ok layer_sizes
      (network (learn_loop inp out learning_rate err_print err_print_frequency epochs self log))
    /\ raised (learn_loop inp out learning_rate err_print err_print_frequency epochs self log)
       <> Some ValueError.
Proof.
  intros HL Hrun. induction epochs as [|epoch rest IH]; intros self log Hok.
  - simpl. split; [exact Hok|discriminate].
  - simpl.
    destruct (epoch_run layer_sizes self inp out learning_rate err_print err_print_frequency
                epoch Hok HL Hrun) as (Si & Xi & Ei & self' & _ & _ & Hep & Hok' & _).
    rewrite Hep.
    destruct (report Ei epoch err_print err_print_frequency) as [p|ex] eqn:Hrep.
    + apply IH. exact Hok'.
    + simpl. split; [exact Hok'|].
      intros [= ->]. exact (report_not_ValueError _ _ _ _ Hrep).
Qed.

Lemma learn_loop_shapes (layer_sizes : list nat) (inp out : matrix F)
      (learning_rate : F) (err_print : bool) (err_print_frequency : Z)
      (epochs : list nat) (self : Perceptron F) (log : list F) :
  2 <= length layer_sizes ->
  shapes_ok layer_sizes self ->
  shapes_ok layer_sizes
    (network (learn_loop inp out learning_rate err_print err_print_frequency epochs self log)).
Proof.
  intros HL Hok.
  destruct (data_run_dec layer_sizes inp out) as [Hrun|Hnot].
  - apply (learn_loop_run layer_sizes); assumption.
  - destruct epochs as [|epoch rest]; [exact Hok|].
    rewrite (learn_loop_fail layer_sizes); auto.
Qed.

Lemma init_unfold (rng : nat -> F) (alloc : list Z -> option exn) (pos : nat)
      (layer_1 layer_2 : Z) (other_layers : list Z) :
  init rng alloc pos layer_1 layer_2 other_layers =
  init_loop rng alloc (layer_1 :: layer_2 :: other_layers)
    (seq 0 (length (layer_1 :: layer_2 :: other_layers) - 1)) (mkPerceptron [] []) pos.
Proof.
  unfold init.
  change ([layer_1; layer_2] ++ other_layers) with (layer_1 :: layer_2 :: other_layers).
  replace (Z.of_nat (length (layer_1 :: layer_2 :: other_layers)) - 1)%Z
    with (Z.of_nat (length (layer_1 :: layer_2 :: other_layers) - 1))
    by (cbn [length]; lia).
  rewrite range_of_nat. reflexivity.
Qed.

Lemma shapes_upto_empty (layer_sizes : list nat) :
  shapes_upto layer_sizes 0 (mkPerceptron (@nil (matrix F)) (@nil (vector F))).
Proof. unfold shapes_upto; simpl. repeat split; auto. intros i Hi; lia. Qed.


Lemma init_Ok_inv (rng : nat -> F) (alloc : list Z -> option exn) (pos pos' : nat)
      (layer_1 layer_2 : Z) (other_layers : list Z) (self : Perceptron F) :
  init rng alloc pos layer_1 layer_2 other_layers = Ok (self, pos') ->
  shapes_ok (map Z.to_nat (layer_1 :: layer_2 :: other_layers)) self /\
  pos' = pos + draws (map Z.to_nat (layer_1 :: layer_2 :: other_layers)) 0
                 (length (layer_1 :: layer_2 :: other_layers) - 1) /\
  sizes_valid (layer_1 :: layer_2 :: other_layers) /\
  allocates alloc (layer_1 :: layer_2 :: other_layers).
Proof.
  rewrite init_unfold.
  set (layers := layer_1 :: layer_2 :: other_layers) in *. intros H.
  assert (HL : 2 <= length layers) by (unfold layers; simpl; lia).
  apply init_loop_Ok_inv in H; [|lia|lia|apply shapes_upto_empty].
  destruct H as (Hinv & Hpos & Hrest). simpl in Hinv.
  split; [unfold shapes_ok; rewrite length_map; exact Hinv|].
  split; [exact Hpos|]. split.
  - intros z Hz. destruct (In_nth _ _ 0%Z Hz) as (j & Hj & <-).
    destruct (Nat.eq_dec j 0) as [->|Hne].
    + apply (Hrest 0). lia.
    + destruct (Hrest (j - 1)) as (_ & H2 & _); [lia|].
      replace (j - 1 + 1) with j in H2 by lia. exact H2.
  - intros i Hi. apply (Hrest i). lia.
Qed.


(** * The claims *)

(** C1.  For a network with layer sizes [n0, ..., nk] and an input of width
    [n0], a vector or a batch, [feedforward] computes the activations by
    [a_(i+1) = sigmoid(a_i . weights[i] + biases[i])] for [i = 0 .. L-2] from
    the raw input [a_0], and returns the last activation, which has width
    [nk] and is a vector for a vector and a batch for a batch. *)
Theorem feedforward_recurrence (layer_sizes : list nat) (self : Perceptron F)
        (inp : ndarray F) :
  2 <= length layer_sizes ->
  shapes_ok layer_sizes self ->
  width inp = nth 0 layer_sizes 0 ->
  evaluates_by_recurrence layer_sizes self inp.
Proof.
  intros HL Hok Hw.
  destruct (feedforward_ok layer_sizes self inp Hok Hw)
    as (acts & out & Hlen & Hhd & Hrec & Hlast & Hff & Hwo & Hnd).
  exists acts, out. repeat split; try assumption. lia.
Qed.

(** C2.  In an epoch the forward pass of the trainer takes
    [X_0 = sigmoid(input)] as its first activation and then follows
    [S_(i+1) = X_i . weights[i] + biases[i]], [X_(i+1) = sigmoid(S_(i+1))];
    [feedforward] takes the raw input as its first activation, so that the
    last value of the trainer is what [feedforward] gives on
    [sigmoid(input)]. *)
Theorem training_forward_pass (layer_sizes : list nat) (self : Perceptron F)
        (inp : matrix F) :
  2 <= length layer_sizes ->
  shapes_ok layer_sizes self ->
  ncols inp = nth 0 layer_sizes 0 ->
  trains_from_sigmoid_of_input layer_sizes self inp.
Proof.
  intros HL Hok Hw.
  destruct (forward_ok layer_sizes self inp Hok Hw)
    as (Si2 & Xi2 & Hfwd & HlS & HlX & Hchain & _ & _).
  destruct (feedforward_ok layer_sizes self (Arr2 inp) Hok Hw)
    as (acts & out & _ & Hhd & Hrec & Hlast & Hff & _ & _).
  exists (inp :: Si2), (mat_map sigmoid inp :: Xi2).
  split; [exact Hfwd|].
  split; [simpl; lia|]. split; [simpl; lia|].
  split; [reflexivity|]. split; [reflexivity|].
  split; [exact Hchain|].
  split; [exact (forward_feedforward self inp _ _ Hfwd)|].
  exists acts. rewrite Hlast. auto.
Qed.

(** C3.  In an epoch the error of the last layer is the residual
    [E_(L-1) = target - X_(L-1)]; the errors of the hidden layers are
    [E_i = E_(i+1) . weights[i]^T] for [i] from [L-2] down to [1], with no
    derivative factor; and every [weights[i]] becomes
    [weights[i] + learning_rate . dw_i] with [dw_i = X_i^T . grad_i] and
    [grad_i = E_(i+1) * sigmoid'(S_(i+1))] entry by entry. *)
Theorem epoch_weight_update (layer_sizes : list nat) (self : Perceptron F)
        (inp out : matrix F) (learning_rate : F) (err_print : bool)
        (err_print_frequency : Z) (epoch : nat) :
  2 <= length layer_sizes ->
  shapes_ok layer_sizes self ->
  data_fit layer_sizes inp out ->
  epoch_backpropagates layer_sizes self inp out learning_rate err_print
    err_print_frequency epoch.
Proof.
  intros HL Hok Hfit.
  destruct (epoch_run layer_sizes self inp out learning_rate err_print err_print_frequency
              epoch Hok HL (data_fit_run _ _ _ Hfit))
    as (Si & Xi & Ei & self' & Hfwd & Hbwd & Hep & _ & HlE & Hchain & (x & e & Hx & He & Hres)
        & Hall).
  exists Si, Xi, Ei. rewrite Hep. simpl fst.
  split; [exact Hfwd|]. split; [exact Hbwd|]. split; [exact HlE|].
  split; [exists x, e; auto|]. split; [exact Hchain|].
  intros i Hi. exact (updates_at_weights _ _ _ _ _ _ _ _ (Hall i Hi)).
Qed.

(** C4, amended.  In an epoch every [biases[i]] becomes
    [biases[i] + learning_rate . np.mean(dw_i, axis=0)]: the mean of every
    column of [dw_i] over its [layer_sizes[i]] rows, the units of layer [i],
    not over the samples. *)
Theorem epoch_bias_update (layer_sizes : list nat) (self : Perceptron F)
        (inp out : matrix F) (learning_rate : F) (err_print : bool)
        (err_print_frequency : Z) (epoch : nat) :
  2 <= length layer_sizes ->
  shapes_ok layer_sizes self ->
  data_fit layer_sizes inp out ->
  epoch_updates_biases layer_sizes self inp out learning_rate err_print
    err_print_frequency epoch mean_over_rows.
Proof.
  intros HL Hok Hfit.
  destruct (epoch_run layer_sizes self inp out learning_rate err_print err_print_frequency
              epoch Hok HL (data_fit_run _ _ _ Hfit))
    as (Si & Xi & Ei & self' & Hfwd & Hbwd & Hep & _ & _ & _ & _ & Hall).
  exists Si, Xi, Ei. rewrite Hep. simpl fst.
  split; [exact Hfwd|]. split; [exact Hbwd|].
  intros i Hi. exact (updates_at_biases _ _ _ _ _ _ _ _ (Hall i Hi)).
Qed.

(** C5, amended.  For a network of at least two layers: [feedforward] on an
    input whose width differs from [layer_sizes[0]] raises numpy's
    [ValueError]; [learn] checks nothing before its loop, and with at least
    one epoch it ends in the first epoch with [ValueError], the weights and
    biases as they were and nothing printed, exactly when the data do not
    run: the input width differs from [layer_sizes[0]], or the targets have
    another number of rows than the inputs and not one row, or another width
    than [layer_sizes[L-1]] and not width one.  On data that run, a target
    axis of length one included, no [ValueError] is raised. *)
Theorem dimension_mismatch (layer_sizes : list nat) (self : Perceptron F) :
  2 <= length layer_sizes ->
  shapes_ok layer_sizes self ->
  (forall inp : ndarray F,
      width inp <> nth 0 layer_sizes 0 -> feedforward self inp = Raise ValueError) /\
  (forall inp out epochs learning_rate err_print err_print_frequency,
      ~ data_run layer_sizes inp out -> (1 <= epochs)%Z ->
      learn self inp out epochs learning_rate err_print err_print_frequency =
        mkOutcome self [] (Some ValueError)) /\
  (forall inp out epochs learning_rate err_print err_print_frequency,
      data_run layer_sizes inp out ->
      raised (learn self inp out epochs learning_rate err_print err_print_frequency)
        <> Some ValueError).
Proof.
  intros HL Hok. split; [|split].
  - intros inp Hw. unfold feedforward.
    destruct (shapes_ok_lengths _ _ Hok) as [-> _]. rewrite range_of_nat.
    destruct (length layer_sizes - 1) as [|n] eqn:EL; [lia|].
    destruct (shapes_ok_at _ _ 0 Hok) as (w & b & Hw0 & Hb0 & Hwr & _); [lia|].
    simpl. rewrite (index_Some _ _ _ _ Hw0). simpl.
    destruct inp as [v|m]; simpl in *.
    + rewrite vec_dot_fail by congruence. reflexivity.
    + rewrite dot_fail by congruence. reflexivity.
  - intros inp out epochs learning_rate err_print err_print_frequency Hnot Hep.
    unfold learn, range.
    destruct (Z.to_nat epochs) as [|n] eqn:En; [lia|].
    simpl seq. apply (learn_loop_fail layer_sizes); assumption.
  - intros inp out epochs learning_rate err_print err_print_frequency Hrun.
    unfold learn. apply (learn_loop_run layer_sizes); assumption.
Qed.


(** C7.  [learn] with [epochs = 0], and with any other non-positive number
    of epochs, which is accepted, leaves every weight matrix and every bias
    vector as it was: it returns the network it was given, prints nothing and
    raises nothing. *)
Theorem no_op_training (self : Perceptron F) (inp out : matrix F) (epochs : Z)
        (learning_rate : F) (err_print : bool) (err_print_frequency : Z) :
  (epochs <= 0)%Z ->
  learn self inp out epochs learning_rate err_print err_print_frequency =
    mkOutcome self [] None.
Proof.
  intros Hep. unfold learn. rewrite (range_nonpos _ Hep). reflexivity.
Qed.

(** C9.  The shape invariants hold for the network a successful construction
    returns, and [learn] preserves them on every data, whether it ends
    normally or with an exception: [len(weights) == len(biases) ==
    len(layer_sizes) - 1], [weights[i]] has shape
    [(layer_sizes[i], layer_sizes[i+1])] and [biases[i]] has length
    [layer_sizes[i+1]].  ([feedforward] assigns to no attribute.) *)
Theorem shape_invariants :
  (forall (rng : nat -> F) (alloc : list Z -> option exn) (pos : nat) (args : list Z)
          (self : Perceptron F) (pos' : nat),
      Perceptron_call rng alloc pos args = Ok (self, pos') ->
      2 <= length args /\ shapes_ok (map Z.to_nat args) self) /\
  (forall (layer_sizes : list nat) (self : Perceptron F) (inp out : matrix F) (epochs : Z)
          (learning_rate : F) (err_print : bool) (err_print_frequency : Z),
      2 <= length layer_sizes ->
      shapes_ok layer_sizes self ->
      shapes_ok layer_sizes
        (network (learn self inp out epochs learning_rate err_print err_print_frequency))).
Proof.
  split.
  - intros rng alloc pos args self pos' Hcall.
    destruct args as [|a [|b t]]; try discriminate.
    split; [simpl; lia|].
    unfold Perceptron_call in Hcall.
    apply (init_Ok_inv rng alloc pos pos' a b t self Hcall).
  - intros layer_sizes self inp out epochs learning_rate err_print err_print_frequency HL Hok.
    unfold learn. apply learn_loop_shapes; assumption.
Qed.

(** * Further properties of [learn] *)

Lemma backward_loop_nonempty (self : Perceptron F) :
  forall idx Ei Ei', Ei <> [] -> backward_loop self idx Ei = Ok Ei' -> Ei' <> [].
Proof.
  induction idx as [|i rest IH]; intros Ei Ei' Hne H; simpl in H.
  - injection H as <-. exact Hne.
  - destruct (index Ei 0) as [e|]; simpl in H; [|discriminate].
    destruct (index (_synapses self) i) as [w|]; simpl in H; [|discriminate].
    destruct (dot e (transpose w)) as [d|]; simpl in H; [|discriminate].
    apply (IH (d :: Ei) Ei'); [discriminate|exact H].
Qed.

Lemma backward_nonempty (self : Perceptron F) (out : matrix F) (Xi Ei : list (matrix F)) :
  backward self out Xi = Ok Ei -> Ei <> [].
Proof.
  unfold backward. intros H.
  destruct (index_last Xi) as [x|]; simpl in H; [|discriminate].
  destruct (mat_binop fsub out x) as [e|]; simpl in H; [|discriminate].
  apply (backward_loop_nonempty self _ [e] Ei (ltac:(discriminate)) H).
Qed.

Lemma index_last_nonempty (A : Type) (l : list A) :
  l <> [] -> exists x, index_last l = Ok x.
Proof.
  intros Hne. destruct l as [|h t]; [contradiction|].
  destruct (nth_error_in_range _ (h :: t) (length (h :: t) - 1)) as (x & Hx); [simpl; lia|].
  exists x. apply index_last_nth. exact Hx.
Qed.

(** An epoch either raises, whatever the reporting arguments, or updates the
    network and reports on a non-empty list of errors. *)
Lemma epoch_body_cases (self : Perceptron F) (inp out : matrix F) (learning_rate : F) :
  (exists self' e, forall err_print err_print_frequency epoch,
      epoch_body self inp out learning_rate err_print err_print_frequency epoch =
        (self', Raise e)) \/
  (exists self' Ei, Ei <> [] /\ forall err_print err_print_frequency epoch,
      epoch_body self inp out learning_rate err_print err_print_frequency epoch =
        (self', report Ei epoch err_print err_print_frequency)).
Proof.
  unfold epoch_body.
  destruct (forward self inp) as [[Si Xi]|e]; simpl; [|left; eauto].
  destruct (backward self out Xi) as [Ei|e] eqn:Hb; simpl; [|left; eauto].
  destruct (update_loop Ei Si Xi learning_rate
              (range (Z.of_nat (length (_synapses self)))) self) as [self' [e|]].
  - left; eauto.
  - right. exists self', Ei. split; [exact (backward_nonempty _ _ _ _ Hb)|]. reflexivity.
Qed.

Lemma report_off (Ei : list (matrix F)) (epoch : nat) (err_print_frequency : Z) :
  report Ei epoch false err_print_frequency = Ok [].
Proof. reflexivity. Qed.

Lemma report_on (Ei : list (matrix F)) (epoch : nat) (err_print_frequency : Z) :
  Ei <> [] -> err_print_frequency <> 0%Z ->
  exists p, report Ei epoch true err_print_frequency = Ok p /\
            length p = length (report_epochs err_print_frequency [epoch]).
Proof.
  intros Hne Hfreq. unfold report, report_epochs. simpl.
  destruct (Z.eqb_spec err_print_frequency 0) as [H0|H0]; [contradiction|].
  destruct (Z.of_nat epoch mod err_print_frequency =? 0)%Z.
  - destruct (index_last_nonempty _ Ei Hne) as (e & He). rewrite He. simpl.
    eexists; split; reflexivity.
  - exists []. split; reflexivity.
Qed.

Lemma report_ok (Ei : list (matrix F)) (epoch : nat) (err_print : bool)
      (err_print_frequency : Z) :
  Ei <> [] -> (err_print = true -> err_print_frequency <> 0%Z) ->
  exists p, report Ei epoch err_print err_print_frequency = Ok p.
Proof.
  intros Hne Hfreq. destruct err_print.
  - destruct (report_on Ei epoch err_print_frequency Hne (Hfreq eq_refl)) as (p & Hp & _).
    exists p. exact Hp.
  - exists []. reflexivity.
Qed.

Lemma learn_loop_report_independent (inp out : matrix F) (learning_rate : F)
      (err_print : bool) (err_print_frequency f : Z) :
  (err_print = true -> err_print_frequency <> 0%Z) ->
  forall epochs self log log',
    network (learn_loop inp out learning_rate err_print err_print_frequency epochs self log)
    = network (learn_loop inp out learning_rate false f epochs self log') /\
    raised (learn_loop inp out learning_rate err_print err_print_frequency epochs self log)
    = raised (learn_loop inp out learning_rate false f epochs self log').
Proof.
  intros Hfreq. induction epochs as [|epoch rest IH]; intros self log log'; simpl.
  - auto.
  - destruct (epoch_body_cases self inp out learning_rate)
      as [(self' & e & H)|(self' & Ei & Hne & H)]; rewrite !H.
    + simpl. auto.
    + rewrite report_off.
      destruct (report_ok Ei epoch err_print err_print_frequency Hne Hfreq) as (p & ->).
      apply IH.
Qed.

Lemma learn_loop_app (inp out : matrix F) (learning_rate : F) (err_print : bool)
      (err_print_frequency : Z) (l2 : list nat) :
  forall l1 self log,
    raised (learn_loop inp out learning_rate err_print err_print_frequency l1 self log) = None ->
    learn_loop inp out learning_rate err_print err_print_frequency (l1 ++ l2) self log =
    learn_loop inp out learning_rate err_print err_print_frequency l2
      (network (learn_loop inp out learning_rate err_print err_print_frequency l1 self log))
      (printed (learn_loop inp out learning_rate err_print err_print_frequency l1 self log)).
Proof.
  induction l1 as [|epoch rest IH]; intros self log Hr; simpl in *.
  - reflexivity.
  - destruct (epoch_body self inp out learning_rate err_print err_print_frequency epoch)
      as [self' [p|e]]; simpl in *.
    + apply IH. exact Hr.
    + discriminate.
Qed.

Lemma learn_loop_off (inp out : matrix F) (learning_rate : F) (f f' : Z) :
  forall l l' self log,
    length l = length l' ->
    learn_loop inp out learning_rate false f l self log =
    learn_loop inp out learning_rate false f' l' self log /\
    printed (learn_loop inp out learning_rate false f l self log) = log.
Proof.
  induction l as [|epoch rest IH]; intros [|epoch' rest'] self log Hlen;
    simpl in Hlen; try discriminate; simpl.
  - auto.
  - destruct (epoch_body_cases self inp out learning_rate)
      as [(self' & e & H)|(self' & Ei & Hne & H)]; rewrite !H.
    + simpl. auto.
    + rewrite !report_off. rewrite app_nil_r. apply IH. lia.
Qed.

(** X1.  The reporting arguments do not change what is learnt nor whether
    [learn] fails, as long as the frequency of an enabled report is not
    zero: the network and the exception are those of a call without
    reports. *)
Theorem reporting_is_an_observer (self : Perceptron F) (inp out : matrix F) (epochs : Z)
        (learning_rate : F) (err_print : bool) (err_print_frequency f : Z) :
  (err_print = true -> err_print_frequency <> 0%Z) ->
  network (learn self inp out epochs learning_rate err_print err_print_frequency)
  = network (learn self inp out epochs learning_rate false f) /\
  raised (learn self inp out epochs learning_rate err_print err_print_frequency)
  = raised (learn self inp out epochs learning_rate false f).
Proof.
  intros Hfreq. unfold learn. apply learn_loop_report_independent. exact Hfreq.
Qed.

(** X2.  With reports enabled and the frequency [0], [epoch % err_print_frequency]
    is evaluated at the end of the first epoch, after the update: [learn]
    leaves the network that one epoch without reports gives, and when that
    epoch runs to its end the call ends with [ZeroDivisionError], however
    many epochs were asked for. *)
Theorem zero_frequency_stops_after_one_epoch (self : Perceptron F) (inp out : matrix F)
        (epochs : Z) (learning_rate : F) (f : Z) :
  (1 <= epochs)%Z ->
  network (learn self inp out epochs learning_rate true 0)
  = network (learn self inp out 1 learning_rate false f) /\
  printed (learn self inp out epochs learning_rate true 0) = [] /\
  (raised (learn self inp out 1 learning_rate false f) = None ->
   raised (learn self inp out epochs learning_rate true 0) = Some ZeroDivisionError).
Proof.
  intros Hep. unfold learn, range.
  destruct (Z.to_nat epochs) as [|n] eqn:En; [lia|].
  change (Z.to_nat 1) with 1. simpl seq. simpl learn_loop.
  destruct (epoch_body_cases self inp out learning_rate)
    as [(self' & e & H)|(self' & Ei & Hne & H)]; rewrite !H.
  - simpl. repeat split. discriminate.
  - rewrite report_off. simpl. auto.
Qed.

(** X3.  Without reports, training [a + b] epochs is training [a] epochs and then
    [b] more on the network they leave, when the first [a] raise nothing:
    an epoch depends on the epochs before it through the weights and biases
    only. *)
Theorem epochs_compose (self : Perceptron F) (inp out : matrix F) (a b : Z)
        (learning_rate : F) (f : Z) :
  (0 <= a)%Z -> (0 <= b)%Z ->
  raised (learn self inp out a learning_rate false f) = None ->
  learn self inp out (a + b) learning_rate false f =
  learn (network (learn self inp out a learning_rate false f)) inp out b learning_rate false f.
Proof.
  intros Ha Hb Hr. unfold learn, range in *.
  replace (Z.to_nat (a + b)) with (Z.to_nat a + Z.to_nat b) by lia.
  rewrite seq_app. rewrite learn_loop_app by exact Hr.
  destruct (learn_loop_off inp out learning_rate f f (seq 0 (Z.to_nat a)) (seq 0 (Z.to_nat a))
              self [] eq_refl) as (_ & ->).
  apply learn_loop_off. rewrite !length_seq. reflexivity.
Qed.

Lemma shapes_ok_errors_nonempty (layer_sizes : list nat) (Ei : list (matrix F)) :
  2 <= length layer_sizes -> length Ei = length layer_sizes - 1 -> Ei <> [].
Proof. intros HL Hlen ->. simpl in Hlen. lia. Qed.

Lemma report_epochs_cons (f : Z) (epoch : nat) (rest : list nat) :
  length (report_epochs f (epoch :: rest)) =
  length (report_epochs f [epoch]) + length (report_epochs f rest).
Proof.
  unfold report_epochs. simpl.
  destruct (Z.of_nat epoch mod f =? 0)%Z; reflexivity.
Qed.

Lemma learn_loop_normal (layer_sizes : list nat) (inp out : matrix F)
      (learning_rate : F) (err_print : bool) (err_print_frequency : Z) :
  2 <= length layer_sizes ->
  data_run layer_sizes inp out ->
  (err_print = true -> err_print_frequency <> 0%Z) ->
  forall epochs self log,
    shapes_ok layer_sizes self ->
    raised (learn_loop inp out learning_rate err_print err_print_frequency epochs self log)
      = None.
Proof.
  intros HL Hrun Hfreq. induction epochs as [|epoch rest IH]; intros self log Hok.
  - reflexivity.
  - simpl.
    destruct (epoch_run layer_sizes self inp out learning_rate err_print err_print_frequency
                epoch Hok HL Hrun) as (Si & Xi & Ei & self' & _ & _ & Hep & Hok' & HlE & _).
    rewrite Hep.
    destruct (report_ok Ei epoch err_print err_print_frequency
                (shapes_ok_errors_nonempty _ _ HL HlE) Hfreq) as (p & ->).
    apply IH. exact Hok'.
Qed.

Lemma learn_loop_reports (layer_sizes : list nat) (inp out : matrix F)
      (learning_rate : F) (err_print_frequency : Z) :
  2 <= length layer_sizes ->
  data_run layer_sizes inp out ->
  err_print_frequency <> 0%Z ->
  forall epochs self log,
    shapes_ok layer_sizes self ->
    exists p,
      printed (learn_loop inp out learning_rate true err_print_frequency epochs self log)
        = log ++ p /\
      length p = length (report_epochs err_print_frequency epochs).
Proof.
  intros HL Hrun Hfreq. induction epochs as [|epoch rest IH]; intros self log Hok.
  - exists []. simpl. rewrite app_nil_r. auto.
  - simpl learn_loop.
    destruct (epoch_run layer_sizes self inp out learning_rate true err_print_frequency
                epoch Hok HL Hrun) as (Si & Xi & Ei & self' & _ & _ & Hep & Hok' & HlE & _).
    rewrite Hep.
    destruct (report_on Ei epoch err_print_frequency
                (shapes_ok_errors_nonempty _ _ HL HlE) Hfreq) as (p1 & -> & Hl1).
    destruct (IH self' (log ++ p1) Hok') as (p2 & Hp & Hl2).
    exists (p1 ++ p2). rewrite Hp, <- app_assoc. split; [reflexivity|].
    rewrite length_app, report_epochs_cons. lia.
Qed.

Lemma report_epochs_count (f : Z) (n : nat) :
  (0 < f)%Z ->
  Z.of_nat (length (report_epochs f (seq 0 n))) = ((Z.of_nat n + f - 1) / f)%Z.
Proof.
  intros Hf. induction n as [|n IH].
  - simpl. symmetry. apply Z.div_small. lia.
  - rewrite seq_S. unfold report_epochs in *. rewrite filter_app, length_app.
    rewrite Nat2Z.inj_add, IH. simpl filter.
    destruct (Z.eqb_spec (Z.of_nat n mod f) 0) as [Hm|Hm]; simpl length.
    + replace (Z.of_nat (S n) + f - 1)%Z with (Z.of_nat n + 1 * f)%Z by lia.
      rewrite Z.div_add by lia.
      assert (Hq : (Z.of_nat n = f * (Z.of_nat n / f))%Z).
      { pose proof (Z.div_mod (Z.of_nat n) f). lia. }
      assert (H1 : ((Z.of_nat n + f - 1) / f = Z.of_nat n / f)%Z).
      { symmetry. apply (Z.div_unique_pos _ _ _ (f - 1)); lia. }
      lia.
    + replace (Z.of_nat (S n) + f - 1)%Z with (Z.of_nat n + 1 * f)%Z by lia.
      rewrite Z.div_add by lia.
      pose proof (Z.div_mod (Z.of_nat n) f) as Hdm.
      pose proof (Z.mod_pos_bound (Z.of_nat n) f Hf) as Hb.
      assert (H1 : ((Z.of_nat n + f - 1) / f = Z.of_nat n / f + 1)%Z).
      { symmetry. apply (Z.div_unique_pos _ _ _ (Z.of_nat n mod f - 1)); lia. }
      lia.
Qed.

(** X4.  On data that run and with a frequency that is not zero when reports are
    enabled, [learn] returns normally; with at least one epoch it returns
    normally only on such data.  Shape errors of numpy and the modulo by a
    zero frequency are the only exceptions of [learn]. *)
Theorem learn_returns_normally (layer_sizes : list nat) (self : Perceptron F)
        (inp out : matrix F) (epochs : Z) (learning_rate : F) (err_print : bool)
        (err_print_frequency : Z) :
  2 <= length layer_sizes ->
  shapes_ok layer_sizes self ->
  (err_print = true -> err_print_frequency <> 0%Z) ->
  (data_run layer_sizes inp out ->
   raised (learn self inp out epochs learning_rate err_print err_print_frequency) = None) /\
  ((1 <= epochs)%Z ->
   raised (learn self inp out epochs learning_rate err_print err_print_frequency) = None ->
   data_run layer_sizes inp out).
Proof.
  intros HL Hok Hfreq. split.
  - intros Hrun. unfold learn. apply (learn_loop_normal layer_sizes); assumption.
  - intros Hep Hr.
    destruct (data_run_dec layer_sizes inp out) as [Hrun|Hnot]; [exact Hrun|].
    exfalso. unfold learn, range in Hr.
    destruct (Z.to_nat epochs) as [|n] eqn:En; [lia|].
    simpl seq in Hr. rewrite (learn_loop_fail layer_sizes) in Hr by assumption.
    discriminate.
Qed.

(** X5.  With reports enabled, a frequency that is not zero and at least one
    epoch, the first value printed is the report of epoch [0]: the mean
    absolute error [mean(|E_(L-1)|)] of the forward pass through the network
    as it was before any update. *)
Theorem first_report_precedes_training (layer_sizes : list nat) (self : Perceptron F)
        (inp out : matrix F) (epochs : Z) (learning_rate : F) (err_print_frequency : Z) :
  2 <= length layer_sizes ->
  shapes_ok layer_sizes self ->
  data_run layer_sizes inp out ->
  err_print_frequency <> 0%Z ->
  (1 <= epochs)%Z ->
  exists Si Xi Ei e,
    forward self inp = Ok (Si, Xi) /\
    backward self out Xi = Ok Ei /\
    nth_error Ei (length layer_sizes - 2) = Some e /\
    hd_error (printed (learn self inp out epochs learning_rate true err_print_frequency))
      = Some (mean_all (mat_map fabs e)).
Proof.
  intros HL Hok Hrun Hfreq Hep.
  destruct (epoch_run layer_sizes self inp out learning_rate true err_print_frequency
              0 Hok HL Hrun)
    as (Si & Xi & Ei & self' & Hfwd & Hbwd & Hbody & Hok' & HlE & _ & (x & e & _ & He & _) & _).
  exists Si, Xi, Ei, e. split; [exact Hfwd|]. split; [exact Hbwd|]. split; [exact He|].
  unfold learn, range.
  destruct (Z.to_nat epochs) as [|n] eqn:En; [lia|].
  simpl seq. simpl learn_loop. rewrite Hbody.
  unfold report.
  destruct (Z.eqb_spec err_print_frequency 0) as [H0|H0]; [contradiction|].
  rewrite Z.mod_0_l by exact H0. simpl Z.eqb.
  rewrite (index_last_nth _ Ei e) by (rewrite HlE; replace (length layer_sizes - 1 - 1)
                                        with (length layer_sizes - 2) by lia; exact He).
  simpl bind. cbv iota.
  destruct (learn_loop_reports layer_sizes inp out learning_rate err_print_frequency
              HL Hrun Hfreq (seq 1 n) self' [mean_all (mat_map fabs e)] Hok')
    as (p & -> & _).
  reflexivity.
Qed.

(** X6.  On data that run, with reports enabled and a positive frequency,
    [learn] prints one value for every epoch number in [0, epochs) that the
    frequency divides: [ceil(epochs / err_print_frequency)] values. *)
Theorem report_count (layer_sizes : list nat) (self : Perceptron F)
        (inp out : matrix F) (epochs : Z) (learning_rate : F) (err_print_frequency : Z) :
  2 <= length layer_sizes ->
  shapes_ok layer_sizes self ->
  data_run layer_sizes inp out ->
  (0 < err_print_frequency)%Z ->
  (0 <= epochs)%Z ->
  Z.of_nat (length (printed (learn self inp out epochs learning_rate true
                               err_print_frequency)))
  = ((epochs + err_print_frequency - 1) / err_print_frequency)%Z.
Proof.
  intros HL Hok Hrun Hfreq Hep. unfold learn, range.
  destruct (learn_loop_reports layer_sizes inp out learning_rate err_print_frequency
              HL Hrun (ltac:(lia)) (seq 0 (Z.to_nat epochs)) self [] Hok) as (p & -> & Hl).
  simpl app. rewrite Hl, report_epochs_count by exact Hfreq.
  rewrite Z2Nat.id by exact Hep. reflexivity.
Qed.

(** * Further properties of [feedforward] and of the constructor *)

Lemma nth_error_seq_map (A : Type) (f : nat -> A) (n r : nat) :
  r < n -> nth_error (map f (seq 0 n)) r = Some (f r).
Proof.
  intros Hr. apply map_nth_error.
  rewrite nth_error_nth' with (d := 0) by (rewrite length_seq; exact Hr).
  rewrite seq_nth by exact Hr. reflexivity.
Qed.

Lemma recurrence_batch (self : Perceptron F) :
  forall tl a k,
    recurrence self k (Arr2 a :: tl) ->
    exists a', last tl (Arr2 a) = Arr2 a' /\ nrows a' = nrows a.
Proof.
  induction tl as [|x tl IH]; intros a k Hrec.
  - exists a. auto.
  - destruct Hrec as ((w & b & _ & _ & Hout) & Hrec).
    destruct x as [v'|m']; simpl in Hout; [contradiction|].
    destruct Hout as (Hr & _).
    destruct (IH m' (S k) Hrec) as (a' & Hlast & Hrows).
    exists a'. rewrite last_cons. split; [exact Hlast|congruence].
Qed.

Lemma recurrence_rows (self : Perceptron F) (r : nat) :
  forall tl1 tl2 a v k,
    recurrence self k (Arr2 a :: tl1) ->
    recurrence self k (Arr1 v :: tl2) ->
    length tl1 = length tl2 ->
    r < nrows a -> same_row r a v ->
    exists a' v',
      last tl1 (Arr2 a) = Arr2 a' /\ last tl2 (Arr1 v) = Arr1 v' /\
      r < nrows a' /\ same_row r a' v'.
Proof.
  induction tl1 as [|x1 tl1 IH]; intros [|x2 tl2] a v k H1 H2 Hlen Hr Hsame;
    simpl in Hlen; try discriminate.
  - exists a, v. auto.
  - destruct H1 as ((w & b & Hw & Hb & Hout1) & H1).
    destruct H2 as ((w' & b' & Hw' & Hb' & Hout2) & H2).
    assert (w' = w) by congruence. assert (b' = b) by congruence. subst w' b'.
    destruct x1 as [?|m']; simpl in Hout1; [contradiction|].
    destruct x2 as [v'|?]; simpl in Hout2; [|contradiction].
    destruct Hout1 as (Hr1 & Hc1 & Hg1). destruct Hout2 as (Hl2 & Hg2).
    destruct Hsame as (Hlv & Hv). simpl in Hv.
    destruct (IH tl2 m' v' (S k) H1 H2) as (a' & v'' & Hla & Hlv' & Hr' & Hsame').
    + lia.
    + lia.
    + split; [congruence|]. simpl. intros j Hj.
      rewrite Hg2 by lia. rewrite Hg1 by lia. rewrite Hlv.
      f_equal. f_equal. apply fsum_ext. intros i Hi. rewrite Hv by exact Hi. reflexivity.
    + exists a', v''. rewrite !last_cons. auto.
Qed.

(** X7.  The list [feedforward] returns has the dimensions of the data: for a
    vector of the width of the first layer, a list of as many numbers as the
    last layer has units; for a batch, one such list for every row, none for
    an empty batch. *)
Theorem feedforward_output_dimensions (layer_sizes : list nat) (self : Perceptron F)
        (inp : ndarray F) :
  shapes_ok layer_sizes self ->
  width inp = nth 0 layer_sizes 0 ->
  match inp with
  | Arr1 _ =>
      exists l, feedforward self inp = Ok (List1 l) /\
                length l = nth (length layer_sizes - 1) layer_sizes 0
  | Arr2 m =>
      exists rows, feedforward self inp = Ok (List2 rows) /\
                   length rows = nrows m /\
                   Forall (fun l => length l = nth (length layer_sizes - 1) layer_sizes 0) rows
  end.
Proof.
  intros Hok Hw.
  destruct (feedforward_ok layer_sizes self inp Hok Hw)
    as (acts & out & Hlen & Hhd & Hrec & Hlast & Hff & Hwo & Hnd).
  destruct acts as [|a0 tl]; [discriminate|]. simpl in Hhd. injection Hhd as ->.
  rewrite last_cons in Hlast.
  destruct inp as [v|m].
  - destruct out as [v'|m']; simpl in Hnd; [|discriminate].
    exists (vec_tolist v'). split; [exact Hff|].
    unfold vec_tolist. rewrite length_map, length_seq. exact Hwo.
  - destruct (recurrence_batch self tl m 0 Hrec) as (a' & Hla & Hrows).
    rewrite Hla in Hlast. subst out.
    exists (mat_tolist a'). split; [exact Hff|].
    unfold mat_tolist. rewrite length_map, length_seq. split; [exact Hrows|].
    apply Forall_forall. intros l Hin. apply in_map_iff in Hin.
    destruct Hin as (i & <- & _). rewrite length_map, length_seq. exact Hwo.
Qed.

(** X8.  The rows of a batch are evaluated independently: row [r] of what
    [feedforward] returns for a batch is what it returns for row [r] of the
    batch given alone, as a vector. *)
Theorem feedforward_rows_independent (layer_sizes : list nat) (self : Perceptron F)
        (m : matrix F) (r : nat) :
  shapes_ok layer_sizes self ->
  ncols m = nth 0 layer_sizes 0 ->
  r < nrows m ->
  exists rows l,
    feedforward self (Arr2 m) = Ok (List2 rows) /\
    feedforward self (Arr1 (row m r)) = Ok (List1 l) /\
    nth_error rows r = Some l.
Proof.
  intros Hok Hw Hr.
  destruct (feedforward_ok layer_sizes self (Arr2 m) Hok Hw)
    as (acts1 & out1 & Hlen1 & Hhd1 & Hrec1 & Hlast1 & Hff1 & _).
  destruct (feedforward_ok layer_sizes self (Arr1 (row m r)) Hok Hw)
    as (acts2 & out2 & Hlen2 & Hhd2 & Hrec2 & Hlast2 & Hff2 & _).
  destruct acts1 as [|a1 tl1]; [discriminate|]. simpl in Hhd1. injection Hhd1 as ->.
  destruct acts2 as [|a2 tl2]; [discriminate|]. simpl in Hhd2. injection Hhd2 as ->.
  rewrite last_cons in Hlast1, Hlast2.
  destruct (recurrence_rows self r tl1 tl2 m (row m r) 0 Hrec1 Hrec2)
    as (a' & v' & Hla & Hlv & Hr' & Hlen & Hsame).
  { simpl in Hlen1, Hlen2. lia. }
  { exact Hr. }
  { split; [reflexivity|]. intros j _. reflexivity. }
  rewrite Hla in Hlast1. rewrite Hlv in Hlast2. subst out1 out2.
  exists (mat_tolist a'), (vec_tolist v').
  split; [exact Hff1|]. split; [exact Hff2|].
  unfold mat_tolist, vec_tolist. rewrite nth_error_seq_map by exact Hr'.
  f_equal. rewrite Hlen. apply map_ext_in. intros j Hj.
  apply in_seq in Hj. symmetry. apply Hsame. lia.
Qed.

(** X9.  A successful construction has taken from the generator exactly one
    draw for every weight and every bias,
    [sum_i (n_i * n_(i+1) + n_(i+1))] draws, and leaves the generator after
    them. *)
Theorem constructor_draws (rng : nat -> F) (alloc : list Z -> option exn) (pos pos' : nat)
        (args : list Z) (self : Perceptron F) :
  Perceptron_call rng alloc pos args = Ok (self, pos') ->
  pos' = pos + draws (map Z.to_nat args) 0 (length args - 1).
Proof.
  intros Hcall.
  destruct args as [|a [|b t]]; try discriminate.
  unfold Perceptron_call in Hcall.
  apply (init_Ok_inv rng alloc pos pos' a b t self Hcall).
Qed.

(** X10.  A network the constructor returned still evaluates after any call of
    [learn], whatever the data, the number of epochs and the reporting
    arguments, and whether the call returned or raised: [feedforward]
    succeeds on every input of the width of the first size. *)
Theorem constructed_network_keeps_evaluating (rng : nat -> F)
        (alloc : list Z -> option exn) (pos pos' : nat)
        (args : list Z) (self : Perceptron F) (inp out : matrix F) (epochs : Z)
        (learning_rate : F) (err_print : bool) (err_print_frequency : Z) (x : ndarray F) :
  Perceptron_call rng alloc pos args = Ok (self, pos') ->
  width x = Z.to_nat (nth 0 args 0%Z) ->
  exists p,
    feedforward
      (network (learn self inp out epochs learning_rate err_print err_print_frequency)) x
    = Ok p.
Proof.
  intros Hcall Hw.
  destruct args as [|a [|b t]]; try discriminate.
  unfold Perceptron_call in Hcall.
  destruct (init_Ok_inv rng alloc pos pos' a b t self Hcall) as (Hok & _).
  assert (HL : 2 <= length (map Z.to_nat (a :: b :: t))) by (simpl; lia).
  pose proof (learn_loop_shapes (map Z.to_nat (a :: b :: t)) inp out learning_rate err_print
                err_print_frequency (range epochs) self [] HL Hok) as Hok'.
  destruct (feedforward_ok _ _ x Hok') as (acts & o & _ & _ & _ & _ & Hff & _).
  { rewrite nth_to_nat. exact Hw. }
  exists (tolist o). exact Hff.
Qed.

(** * The range of the outputs *)

Lemma recurrence_last_sigmoid (self : Perceptron F) :
  forall tl a k,
    tl <> [] ->
    recurrence self k (a :: tl) ->
    match last tl a with
    | Arr1 v' => forall j, j < vlen v' -> exists z, vget v' j = sigmoid z
    | Arr2 m' => forall r j, r < nrows m' -> j < ncols m' -> exists z, mget m' r j = sigmoid z
    end.
Proof.
  induction tl as [|x tl IH]; intros a k Hne Hrec; [contradiction|].
  destruct Hrec as ((w & b & _ & _ & Hout) & Hrec).
  destruct tl as [|y tl'].
  - simpl. destruct a as [v|m]; destruct x as [v'|m']; simpl in Hout; try contradiction.
    + destruct Hout as (Hl & Hg). intros j Hj. rewrite Hg by lia. eauto.
    + destruct Hout as (Hr & Hc & Hg). intros r j Hr' Hj.
      rewrite Hg by lia. eauto.
  - rewrite last_cons. apply (IH x (S k)); [discriminate|exact Hrec].
Qed.

(** * [learn] on nested lists *)

Lemma index_map (A B : Type) (f : A -> B) (l : list A) (i : nat) :
  index (map f l) i = match index l i with Ok a => Ok (f a) | Raise e => Raise e end.
Proof. unfold index. rewrite nth_error_map. destruct (nth_error l i); reflexivity. Qed.

Lemma index_last_map (A B : Type) (f : A -> B) (l : list A) :
  index_last (map f l) = match index_last l with Ok a => Ok (f a) | Raise e => Raise e end.
Proof.
  destruct l as [|h t]; [reflexivity|].
  unfold index_last. change (map f (h :: t)) with (f h :: map f t) at 1.
  cbv iota. change (f h :: map f t) with (map f (h :: t)).
  rewrite length_map. apply index_map.
Qed.

Lemma map_snoc (A B : Type) (f : A -> B) (l : list A) (a : A) :
  map f l ++ [f a] = map f (l ++ [a]).
Proof. rewrite map_app. reflexivity. Qed.

Lemma forward_loop_nd_2d (self : Perceptron F) :
  forall idx Si Xi,
    forward_loop_nd self idx (map (@A2 F) Si) (map (@A2 F) Xi) =
    match forward_loop self idx Si Xi with
    | Ok (S', X') => Ok (map (@A2 F) S', map (@A2 F) X')
    | Raise e => Raise e
    end.
Proof.
  induction idx as [|i rest IH]; intros Si Xi; [reflexivity|].
  simpl. rewrite index_map.
  destruct (index Xi i) as [x|]; simpl; [|reflexivity].
  destruct (index (_synapses self) i) as [w|]; simpl; [|reflexivity].
  destruct (dot x w) as [d|]; simpl; [|reflexivity].
  destruct (index (_biases self) i) as [b|]; simpl; [|reflexivity].
  unfold mat_add_vec.
  destruct (mat_binop fadd d (as_row b)) as [s|]; simpl; [|reflexivity].
  rewrite (map_snoc _ _ (@A2 F) Si s), index_last_map.
  destruct (index_last (Si ++ [s])) as [s'|]; simpl; [|reflexivity].
  rewrite (map_snoc _ _ (@A2 F) Xi (mat_map sigmoid s')). apply IH.
Qed.

Lemma forward_nd_2d (self : Perceptron F) (inp : matrix F) :
  forward_nd self (A2 inp) =
  match forward self inp with
  | Ok (S', X') => Ok (map (@A2 F) S', map (@A2 F) X')
  | Raise e => Raise e
  end.
Proof.
  unfold forward_nd, forward.
  change (index_last [A2 inp]) with (@Ok (array F) (A2 inp)).
  change (index_last [inp]) with (Ok inp). simpl bind.
  apply (forward_loop_nd_2d self _ [inp] [mat_map sigmoid inp]).
Qed.

Lemma backward_loop_nd_2d (self : Perceptron F) :
  forall idx Ei,
    backward_loop_nd self idx (map (@A2 F) Ei) =
    match backward_loop self idx Ei with
    | Ok E' => Ok (map (@A2 F) E')
    | Raise e => Raise e
    end.
Proof.
  induction idx as [|i rest IH]; intros Ei; [reflexivity|].
  simpl. rewrite index_map.
  destruct (index Ei 0) as [e|]; simpl; [|reflexivity].
  destruct (index (_synapses self) i) as [w|]; simpl; [|reflexivity].
  destruct (dot e (transpose w)) as [d|]; simpl; [|reflexivity].
  apply (IH (d :: Ei)).
Qed.

Lemma backward_nd_2d (self : Perceptron F) (out : matrix F) (Xi : list (matrix F)) :
  backward_nd self (A2 out) (map (@A2 F) Xi) =
  match backward self out Xi with
  | Ok E' => Ok (map (@A2 F) E')
  | Raise e => Raise e
  end.
Proof.
  unfold backward_nd, backward. rewrite index_last_map, length_map.
  destruct (index_last Xi) as [x|]; simpl; [|reflexivity].
  destruct (mat_binop fsub out x) as [e|]; simpl; [|reflexivity].
  apply (backward_loop_nd_2d self _ [e]).
Qed.

Lemma delta_nd_2d (Ei Si Xi : list (matrix F)) (i : nat) :
  delta_nd (map (@A2 F) Ei) (map (@A2 F) Si) (map (@A2 F) Xi) i =
  match delta Ei Si Xi i with
  | Ok dw => Ok (A2 dw)
  | Raise e => Raise e
  end.
Proof.
  unfold delta_nd, delta. rewrite !index_map.
  destruct (index Ei i) as [e|]; simpl; [|reflexivity].
  destruct (index Si (i + 1)) as [s|]; simpl; [|reflexivity].
  destruct (mat_binop fmul e (mat_map deriv_sigmoid s)) as [grad|]; simpl; [|reflexivity].
  destruct (index Xi i) as [x|]; simpl; [|reflexivity].
  destruct (dot (transpose grad) x) as [d|]; reflexivity.
Qed.

Lemma update_loop_nd_2d (Ei Si Xi : list (matrix F)) (learning_rate : F) :
  forall idx self,
    update_loop_nd (map (@A2 F) Ei) (map (@A2 F) Si) (map (@A2 F) Xi) learning_rate idx self =
    update_loop Ei Si Xi learning_rate idx self.
Proof.
  induction idx as [|i rest IH]; intros self; [reflexivity|].
  simpl. rewrite delta_nd_2d.
  destruct (delta Ei Si Xi i) as [dw|]; [|reflexivity].
  destruct (index (_synapses self) i) as [w|]; simpl; [|reflexivity].
  unfold mat_scale.
  destruct (mat_iadd w (mat_map (fun x => fmul x learning_rate) dw)) as [w'|];
    [|reflexivity].
  destruct (index (_biases self) i) as [b|]; simpl; [|reflexivity].
  unfold vec_scale.
  destruct (vec_iadd b (vec_map (fun x => fmul x learning_rate) (mean_axis0 dw)))
    as [b'|]; [|reflexivity].
  apply IH.
Qed.

Lemma report_nd_2d (Ei : list (matrix F)) (epoch : nat) (err_print : bool)
      (err_print_frequency : Z) :
  report_nd (map (@A2 F) Ei) epoch err_print err_print_frequency =
  report Ei epoch err_print err_print_frequency.
Proof.
  unfold report_nd, report. rewrite index_last_map.
  destruct err_print; [|reflexivity].
  destruct (err_print_frequency =? 0)%Z; [reflexivity|].
  destruct (Z.of_nat epoch mod err_print_frequency =? 0)%Z; [|reflexivity].
  destruct (index_last Ei); reflexivity.
Qed.

Lemma epoch_body_nd_2d (self : Perceptron F) (inp out : matrix F) (learning_rate : F)
      (err_print : bool) (err_print_frequency : Z) (epoch : nat) :
  epoch_body_nd self (A2 inp) (A2 out) learning_rate err_print err_print_frequency epoch =
  epoch_body self inp out learning_rate err_print err_print_frequency epoch.
Proof.
  unfold epoch_body_nd, epoch_body. rewrite forward_nd_2d.
  destruct (forward self inp) as [[Si Xi]|]; simpl; [|reflexivity].
  rewrite backward_nd_2d.
  destruct (backward self out Xi) as [Ei|]; simpl; [|reflexivity].
  rewrite update_loop_nd_2d.
  destruct (update_loop Ei Si Xi learning_rate
              (range (Z.of_nat (length (_synapses self)))) self) as [self' [e|]];
    [reflexivity|].
  rewrite report_nd_2d. reflexivity.
Qed.

Lemma learn_loop_nd_2d (inp out : matrix F) (learning_rate : F) (err_print : bool)
      (err_print_frequency : Z) :
  forall epochs self log,
    learn_loop_nd (A2 inp) (A2 out) learning_rate err_print err_print_frequency epochs
      self log =
    learn_loop inp out learning_rate err_print err_print_frequency epochs self log.
Proof.
  induction epochs as [|epoch rest IH]; intros self log; [reflexivity|].
  simpl. rewrite epoch_body_nd_2d.
  destruct (epoch_body self inp out learning_rate err_print err_print_frequency epoch)
    as [self' [p|e]]; [apply IH|reflexivity].
Qed.

(** On lists that [np.array] makes 2-D arrays of, the method is [learn] on
    these arrays. *)
Lemma Perceptron_learn_2d (self : Perceptron F) (inp out : list (list F)) (i o : matrix F)
      (epochs : Z) (learning_rate : F) (err_print : bool) (err_print_frequency : Z) :
  np_array inp = Ok (A2 i) -> np_array out = Ok (A2 o) ->
  Perceptron_learn self inp out epochs learning_rate err_print err_print_frequency =
  learn self i o epochs learning_rate err_print err_print_frequency.
Proof.
  intros Hi Ho. unfold Perceptron_learn, learn. rewrite Hi, Ho.
  apply learn_loop_nd_2d.
Qed.

Lemma forallb_same_length (r : list F) (rest : list (list F)) :
  forallb (fun r' => length r' =? length r) rest = true <-> rectangular (r :: rest).
Proof.
  rewrite forallb_forall. split.
  - intros H a b Ha Hb.
    assert (Hlen : forall c, In c (r :: rest) -> length c = length r).
    { intros c [<-|Hc]; [reflexivity|]. apply Nat.eqb_eq. apply H. exact Hc. }
    rewrite (Hlen a Ha), (Hlen b Hb). reflexivity.
  - intros H c Hc. apply Nat.eqb_eq. apply H; [right; exact Hc|left; reflexivity].
Qed.

Lemma np_array_rectangular (l : list (list F)) :
  rectangular l -> exists a, np_array l = Ok a.
Proof.
  intros H. destruct l as [|r rest]; simpl; [eauto|].
  apply forallb_same_length in H. rewrite H. eauto.
Qed.

Lemma np_array_ragged (l : list (list F)) :
  ~ rectangular l -> np_array l = Raise ValueError.
Proof.
  intros H. destruct l as [|r rest]; simpl.
  - exfalso. apply H. intros a b [].
  - destruct (forallb (fun r' => length r' =? length r) rest) eqn:E; [|reflexivity].
    exfalso. apply H. apply forallb_same_length. exact E.
Qed.

Lemma np_array_Raise (l : list (list F)) (e : exn) :
  np_array l = Raise e -> e = ValueError.
Proof.
  destruct l as [|r rest]; simpl; [discriminate|].
  destruct (forallb (fun r' => length r' =? length r) rest); congruence.
Qed.

(** C10, amended.  [learn] with [epochs = 0] never meets the shapes of the
    network: only the two [np.array] conversions run.  It returns normally,
    the network as it was, on all inputs and targets whose rows have one
    length, however mismatched; a ragged list ends the call with the
    [ValueError] of [np.array], before the loop, whatever the number of
    epochs.  The shapes are only met inside the loop over the epochs: one
    epoch on 2-D data that do not run raises [ValueError]. *)
Theorem zero_epochs_no_validation (self : Perceptron F) (inp out : list (list F))
        (learning_rate : F) (err_print : bool) (err_print_frequency : Z) :
  (rectangular inp -> rectangular out ->
   Perceptron_learn self inp out 0 learning_rate err_print err_print_frequency =
     mkOutcome self [] None) /\
  (~ rectangular inp \/ ~ rectangular out ->
   forall epochs,
     Perceptron_learn self inp out epochs learning_rate err_print err_print_frequency =
       mkOutcome self [] (Some ValueError)) /\
  (forall layer_sizes i o,
     2 <= length layer_sizes -> shapes_ok layer_sizes self ->
     np_array inp = Ok (A2 i) -> np_array out = Ok (A2 o) ->
     ~ data_run layer_sizes i o ->
     raised (Perceptron_learn self inp out 1 learning_rate err_print err_print_frequency)
       = Some ValueError).
Proof.
  split; [|split].
  - intros Hi Ho. unfold Perceptron_learn.
    destruct (np_array_rectangular inp Hi) as (i & ->).
    destruct (np_array_rectangular out Ho) as (o & ->).
    reflexivity.
  - intros H epochs. unfold Perceptron_learn.
    destruct (np_array inp) as [i|e] eqn:Ei.
    + destruct H as [Hi|Ho].
      * rewrite (np_array_ragged inp Hi) in Ei. discriminate.
      * rewrite (np_array_ragged out Ho). reflexivity.
    + rewrite (np_array_Raise inp e Ei). reflexivity.
  - intros layer_sizes i o HL Hok Hi Ho Hnot.
    rewrite (Perceptron_learn_2d self inp out i o 1 learning_rate err_print
               err_print_frequency Hi Ho).
    unfold learn. change (range 1) with [0].
    rewrite (learn_loop_fail layer_sizes); auto.
Qed.

End Properties.

(** * The claims on concrete networks over the real numbers *)

(** Rewrites every [exp a] whose argument is zero to [1]. *)
Ltac exp_zero :=
  repeat match goal with
    | |- context [exp ?a] =>
        lazymatch a with
        | 0%R => fail
        | _ => replace a with 0%R by lra
        end
    end;
  rewrite ?exp_0.

Ltac unfold_arith := unfold sigmoid, deriv_sigmoid, sigmoid, fsum, bidx; simpl.

Lemma net11_shapes_ok (w b : R) : shapes_ok [1; 1] (net11 w b).
Proof.
  unfold shapes_ok, shapes_upto. simpl. split; [reflexivity|]. split; [reflexivity|].
  intros i Hi. assert (i = 0) by lia. subst i.
  unfold layer_shape. simpl. eexists; eexists. repeat split.
Qed.

Lemma two_zeros_two_ones_fit : data_fit [1; 1] two_zeros two_ones.
Proof. repeat split. Qed.

Lemma two_wide_does_not_run : ~ data_run [1; 1] two_wide two_ones.
Proof. intros (H & _). simpl in H. discriminate. Qed.

(** The last value of the trainer's forward pass and the value of
    [feedforward] on the same input differ: on the network [1, 1] with
    weight [1] and bias [0] and the input [0], [feedforward] gives
    [sigmoid(0) = 1/2] and the trainer [sigmoid(sigmoid(0))]. *)
Lemma training_differs_from_evaluation :
  exists a b : R,
    feedforward (net11 1 0) (Arr2 (np_array2 [[0%R]])) = Ok (List2 [[a]]) /\
    feedforward (net11 1 0) (Arr2 (mat_map sigmoid (np_array2 [[0%R]]))) = Ok (List2 [[b]]) /\
    a <> b.
Proof.
  eexists; eexists. split; [reflexivity|]. split; [reflexivity|].
  unfold_arith.
  replace (- (0 + 0 * 1 + 0))%R with 0%R by lra.
  replace (- 0)%R with 0%R by lra.
  rewrite exp_0.
  replace (- (0 + 1 / (1 + 1) * 1 + 0))%R with (- (1 / 2))%R by lra.
  assert (Hlt : (exp (- (1 / 2)) < 1)%R).
  { assert (H : (exp (- (1 / 2)) < exp 0)%R) by (apply exp_increasing; lra).
    rewrite exp_0 in H. exact H. }
  assert (Hpos : (0 < exp (- (1 / 2)))%R) by apply exp_pos.
  intros Heq.
  assert (H2 : ((1 + exp (- (1 / 2))) * (1 / (1 + exp (- (1 / 2)))) = 1)%R)
    by (field; lra).
  rewrite <- Heq in H2. lra.
Qed.

(** C1, on the network [1, 1] and the vector [[0]]. *)
Lemma feedforward_recurrence_witness :
  2 <= length [1; 1] /\
  shapes_ok [1; 1] (net11 0 0) /\
  width (Arr1 (np_array1 [0%R])) = nth 0 [1; 1] 0 /\
  evaluates_by_recurrence [1; 1] (net11 0 0) (Arr1 (np_array1 [0%R])).
Proof.
  assert (H1 : 2 <= length [1; 1]) by (simpl; lia).
  assert (H2 : shapes_ok [1; 1] (net11 0 0)) by apply net11_shapes_ok.
  assert (H3 : width (Arr1 (np_array1 [0%R])) = nth 0 [1; 1] 0) by reflexivity.
  split; [exact H1|]. split; [exact H2|]. split; [exact H3|].
  exact (@feedforward_recurrence R R_Scalar [1; 1] (net11 0 0) (Arr1 (np_array1 [0%R]))
           H1 H2 H3).
Defined.

(** C2, on the network [1, 1] and two samples. *)
Lemma training_forward_pass_witness :
  2 <= length [1; 1] /\
  shapes_ok [1; 1] (net11 0 0) /\
  ncols two_zeros = nth 0 [1; 1] 0 /\
  trains_from_sigmoid_of_input [1; 1] (net11 0 0) two_zeros.
Proof.
  assert (H1 : 2 <= length [1; 1]) by (simpl; lia).
  assert (H2 : shapes_ok [1; 1] (net11 0 0)) by apply net11_shapes_ok.
  assert (H3 : ncols two_zeros = nth 0 [1; 1] 0) by reflexivity.
  split; [exact H1|]. split; [exact H2|]. split; [exact H3|].
  exact (@training_forward_pass R R_Scalar [1; 1] (net11 0 0) two_zeros H1 H2 H3).
Defined.

(** C3, on the network [1, 1], two samples and their targets. *)
Lemma epoch_weight_update_witness :
  2 <= length [1; 1] /\
  shapes_ok [1; 1] (net11 0 0) /\
  data_fit [1; 1] two_zeros two_ones /\
  epoch_backpropagates [1; 1] (net11 0 0) two_zeros two_ones 1%R false 0 0.
Proof.
  assert (H1 : 2 <= length [1; 1]) by (simpl; lia).
  assert (H2 : shapes_ok [1; 1] (net11 0 0)) by apply net11_shapes_ok.
  assert (H3 : data_fit [1; 1] two_zeros two_ones) by apply two_zeros_two_ones_fit.
  split; [exact H1|]. split; [exact H2|]. split; [exact H3|].
  exact (@epoch_weight_update R R_Scalar [1; 1] (net11 0 0) two_zeros two_ones 1%R false
           0%Z 0 H1 H2 H3).
Defined.

(** C4 as the specification states it fails: on the network [1, 1] with
    weight and bias [0], the two samples [0] with targets [1] and the
    learning rate [1], [dw_0] is the single entry [1/8], summed over the two
    samples, and the bias becomes [1/8], its mean over the one row; the mean
    over the two samples would make it [1/16]. *)
Lemma bias_update_not_over_samples :
  ~ epoch_updates_biases [1; 1] (net11 0 0) two_zeros two_ones 1%R false 0 0
      mean_over_samples.
Proof.
  intros (Si & Xi & Ei & Hf & Hb & Hall).
  simpl in Hf. injection Hf as <- <-.
  simpl in Hb. injection Hb as <-.
  destruct (Hall 0) as (b & b' & x & e & s & H1 & H2 & H3 & H4 & H5 & _ & H6);
    [simpl; lia|].
  simpl in H1, H2, H3, H4, H5.
  injection H1 as <-. injection H2 as <-. injection H3 as <-.
  injection H4 as <-. injection H5 as <-.
  specialize (H6 0). simpl in H6.
  assert (H0 : 0 < 1) by lia. specialize (H6 H0). clear H0 Hall.
  unfold mean_over_samples, spec_dw in H6. simpl in H6.
  revert H6. unfold_arith. exp_zero. intros H6. lra.
Qed.

(** C4, amended, on the same network and data. *)
Lemma epoch_bias_update_witness :
  2 <= length [1; 1] /\
  shapes_ok [1; 1] (net11 0 0) /\
  data_fit [1; 1] two_zeros two_ones /\
  epoch_updates_biases [1; 1] (net11 0 0) two_zeros two_ones 1%R false 0 0 mean_over_rows.
Proof.
  assert (H1 : 2 <= length [1; 1]) by (simpl; lia).
  assert (H2 : shapes_ok [1; 1] (net11 0 0)) by apply net11_shapes_ok.
  assert (H3 : data_fit [1; 1] two_zeros two_ones) by apply two_zeros_two_ones_fit.
  split; [exact H1|]. split; [exact H2|]. split; [exact H3|].
  exact (@epoch_bias_update R R_Scalar [1; 1] (net11 0 0) two_zeros two_ones 1%R false
           0%Z 0 H1 H2 H3).
Defined.

(** C5 as the specification states it fails: two input rows with a single
    target row have mismatched row counts, yet an epoch of [learn] raises
    nothing; and inputs of the wrong width raise nothing when [epochs = 0]. *)
Lemma mismatched_rows_not_rejected :
  nrows one_one <> nrows two_zeros /\
  raised (learn (net11 0 0) two_zeros one_one 1 1%R false 0) = None /\
  ncols two_wide <> nth 0 [1; 1] 0 /\
  raised (learn (net11 0 0) two_wide two_ones 0 1%R false 0) = None.
Proof.
  split; [simpl; lia|]. split; [reflexivity|]. split; [simpl; lia|reflexivity].
Qed.

(** C5, amended, on the network [1, 1]: inputs of width two end the first
    epoch with [ValueError] and the network as it was. *)
Lemma dimension_mismatch_witness :
  2 <= length [1; 1] /\
  shapes_ok [1; 1] (net11 0 0) /\
  ~ data_run [1; 1] two_wide two_ones /\
  learn (net11 0 0) two_wide two_ones 1 1%R false 0 =
    mkOutcome (net11 0 0) [] (Some ValueError).
Proof.
  assert (H1 : 2 <= length [1; 1]) by (simpl; lia).
  assert (H2 : shapes_ok [1; 1] (net11 0 0)) by apply net11_shapes_ok.
  split; [exact H1|]. split; [exact H2|]. split; [exact two_wide_does_not_run|].
  apply (proj1 (proj2 (@dimension_mismatch R R_Scalar [1; 1] (net11 0 0) H1 H2))).
  - exact two_wide_does_not_run.
  - lia.
Defined.





(** C7, on a negative number of epochs. *)
Lemma no_op_training_witness :
  (-3 <= 0)%Z /\
  learn (net11 0 0) two_zeros two_ones (-3) 1%R true 0 = mkOutcome (net11 0 0) [] None.
Proof.
  assert (H1 : (-3 <= 0)%Z) by lia.
  split; [exact H1|].
  exact (@no_op_training R R_Scalar (net11 0 0) two_zeros two_ones (-3) 1%R true 0%Z H1).
Defined.

(** C9, on two epochs of the network [1, 1]. *)
Lemma shape_invariants_witness :
  2 <= length [1; 1] /\
  shapes_ok [1; 1] (net11 0 0) /\
  shapes_ok [1; 1] (network (learn (net11 0 0) two_zeros two_ones 2 1%R false 0)).
Proof.
  assert (H1 : 2 <= length [1; 1]) by (simpl; lia).
  assert (H2 : shapes_ok [1; 1] (net11 0 0)) by apply net11_shapes_ok.
  split; [exact H1|]. split; [exact H2|].
  exact (proj2 (@shape_invariants R R_Scalar) [1; 1] (net11 0 0) two_zeros two_ones 2%Z 1%R
           false 0%Z H1 H2).
Defined.

(** C10 as the specification states it fails: with [epochs = 0] a ragged
    list of inputs, malformed but of the annotated type, ends the call with
    the [ValueError] of [np.array]. *)
Lemma ragged_inputs_rejected_before_loop :
  raised (Perceptron_learn (net11 0 0) [[0%R]; [0%R; 0%R]] [[1%R]] 0 1%R false 0)
  = Some ValueError.
Proof. reflexivity. Qed.

Lemma wide_rows_rectangular : rectangular [[0%R; 0%R]; [0%R; 0%R]].
Proof.
  apply (@forallb_same_length R [0%R; 0%R] [[0%R; 0%R]]). reflexivity.
Qed.

Lemma two_targets_rectangular : rectangular [[1%R]; [1%R]].
Proof.
  apply (@forallb_same_length R [1%R] [[1%R]]). reflexivity.
Qed.

(** C10, amended, on inputs of width two for the network [1, 1]. *)
Lemma zero_epochs_no_validation_witness :
  rectangular [[0%R; 0%R]; [0%R; 0%R]] /\ rectangular [[1%R]; [1%R]] /\
  2 <= length [1; 1] /\
  shapes_ok [1; 1] (net11 0 0) /\
  ~ data_run [1; 1] two_wide two_ones /\
  Perceptron_learn (net11 0 0) [[0%R; 0%R]; [0%R; 0%R]] [[1%R]; [1%R]] 0 1%R true 0
    = mkOutcome (net11 0 0) [] None /\
  raised (Perceptron_learn (net11 0 0) [[0%R; 0%R]; [0%R; 0%R]] [[1%R]; [1%R]] 1 1%R true 0)
    = Some ValueError.
Proof.
  assert (H1 : 2 <= length [1; 1]) by (simpl; lia).
  assert (H2 : shapes_ok [1; 1] (net11 0 0)) by apply net11_shapes_ok.
  split; [exact wide_rows_rectangular|]. split; [exact two_targets_rectangular|].
  split; [exact H1|]. split; [exact H2|]. split; [exact two_wide_does_not_run|].
  destruct (@zero_epochs_no_validation R R_Scalar (net11 0 0) [[0%R; 0%R]; [0%R; 0%R]]
              [[1%R]; [1%R]] 1%R true 0%Z) as (Hzero & _ & Hone).
  split; [exact (Hzero wide_rows_rectangular two_targets_rectangular)|].
  exact (Hone [1; 1] two_wide two_ones H1 H2 eq_refl eq_refl two_wide_does_not_run).
Defined.

(** * The further properties on concrete networks *)

Lemma two_zeros_two_ones_run : data_run [1; 1] two_zeros two_ones.
Proof. unfold data_run. simpl. auto. Qed.

Lemma reporting_is_an_observer_witness :
  (true = true -> 5%Z <> 0%Z) /\
  network (learn (net11 0 0) two_zeros two_ones 2 1%R true 5)
  = network (learn (net11 0 0) two_zeros two_ones 2 1%R false 0) /\
  raised (learn (net11 0 0) two_zeros two_ones 2 1%R true 5)
  = raised (learn (net11 0 0) two_zeros two_ones 2 1%R false 0).
Proof.
  assert (H : true = true -> 5%Z <> 0%Z) by (intros _; lia).
  split; [exact H|].
  exact (@reporting_is_an_observer R R_Scalar (net11 0 0) two_zeros two_ones 2%Z 1%R true
           5%Z 0%Z H).
Defined.

Lemma zero_frequency_stops_after_one_epoch_witness :
  (1 <= 3)%Z /\
  network (learn (net11 0 0) two_zeros two_ones 3 1%R true 0)
  = network (learn (net11 0 0) two_zeros two_ones 1 1%R false 7) /\
  printed (learn (net11 0 0) two_zeros two_ones 3 1%R true 0) = [] /\
  (raised (learn (net11 0 0) two_zeros two_ones 1 1%R false 7) = None ->
   raised (learn (net11 0 0) two_zeros two_ones 3 1%R true 0) = Some ZeroDivisionError).
Proof.
  assert (H : (1 <= 3)%Z) by lia.
  split; [exact H|].
  exact (@zero_frequency_stops_after_one_epoch R R_Scalar (net11 0 0) two_zeros two_ones 3%Z
           1%R 7%Z H).
Defined.

Lemma epochs_compose_witness :
  (0 <= 1)%Z /\ (0 <= 2)%Z /\
  raised (learn (net11 0 0) two_zeros two_ones 1 1%R false 0) = None /\
  learn (net11 0 0) two_zeros two_ones (1 + 2) 1%R false 0 =
  learn (network (learn (net11 0 0) two_zeros two_ones 1 1%R false 0))
    two_zeros two_ones 2 1%R false 0.
Proof.
  assert (H1 : (0 <= 1)%Z) by lia.
  assert (H2 : (0 <= 2)%Z) by lia.
  assert (H3 : raised (learn (net11 0 0) two_zeros two_ones 1 1%R false 0) = None)
    by reflexivity.
  split; [exact H1|]. split; [exact H2|]. split; [exact H3|].
  exact (@epochs_compose R R_Scalar (net11 0 0) two_zeros two_ones 1%Z 2%Z 1%R 0%Z H1 H2 H3).
Defined.

Lemma learn_returns_normally_witness :
  2 <= length [1; 1] /\
  shapes_ok [1; 1] (net11 0 0) /\
  (true = true -> 5%Z <> 0%Z) /\
  data_run [1; 1] two_zeros one_one /\
  raised (learn (net11 0 0) two_zeros one_one 4 1%R true 5) = None.
Proof.
  assert (H1 : 2 <= length [1; 1]) by (simpl; lia).
  assert (H2 : shapes_ok [1; 1] (net11 0 0)) by apply net11_shapes_ok.
  assert (H3 : true = true -> 5%Z <> 0%Z) by (intros _; lia).
  assert (H4 : data_run [1; 1] two_zeros one_one) by (unfold data_run; simpl; auto).
  split; [exact H1|]. split; [exact H2|]. split; [exact H3|]. split; [exact H4|].
  exact (proj1 (@learn_returns_normally R R_Scalar [1; 1] (net11 0 0) two_zeros one_one 4%Z
                  1%R true 5%Z H1 H2 H3) H4).
Defined.

Lemma first_report_precedes_training_witness :
  2 <= length [1; 1] /\
  shapes_ok [1; 1] (net11 0 0) /\
  data_run [1; 1] two_zeros two_ones /\
  5%Z <> 0%Z /\ (1 <= 2)%Z /\
  exists Si Xi Ei e,
    forward (net11 0 0) two_zeros = Ok (Si, Xi) /\
    backward (net11 0 0) two_ones Xi = Ok Ei /\
    nth_error Ei (length [1; 1] - 2) = Some e /\
    hd_error (printed (learn (net11 0 0) two_zeros two_ones 2 1%R true 5))
      = Some (mean_all (mat_map fabs e)).
Proof.
  assert (H1 : 2 <= length [1; 1]) by (simpl; lia).
  assert (H2 : shapes_ok [1; 1] (net11 0 0)) by apply net11_shapes_ok.
  assert (H3 : data_run [1; 1] two_zeros two_ones) by apply two_zeros_two_ones_run.
  assert (H4 : 5%Z <> 0%Z) by lia.
  assert (H5 : (1 <= 2)%Z) by lia.
  split; [exact H1|]. split; [exact H2|]. split; [exact H3|]. split; [exact H4|].
  split; [exact H5|].
  exact (@first_report_precedes_training R R_Scalar [1; 1] (net11 0 0) two_zeros two_ones 2%Z
           1%R 5%Z H1 H2 H3 H4 H5).
Defined.

Lemma report_count_witness :
  2 <= length [1; 1] /\
  shapes_ok [1; 1] (net11 0 0) /\
  data_run [1; 1] two_zeros two_ones /\
  (0 < 2)%Z /\ (0 <= 5)%Z /\
  Z.of_nat (length (printed (learn (net11 0 0) two_zeros two_ones 5 1%R true 2)))
  = ((5 + 2 - 1) / 2)%Z.
Proof.
  assert (H1 : 2 <= length [1; 1]) by (simpl; lia).
  assert (H2 : shapes_ok [1; 1] (net11 0 0)) by apply net11_shapes_ok.
  assert (H3 : data_run [1; 1] two_zeros two_ones) by apply two_zeros_two_ones_run.
  assert (H4 : (0 < 2)%Z) by lia.
  assert (H5 : (0 <= 5)%Z) by lia.
  split; [exact H1|]. split; [exact H2|]. split; [exact H3|]. split; [exact H4|].
  split; [exact H5|].
  exact (@report_count R R_Scalar [1; 1] (net11 0 0) two_zeros two_ones 5%Z 1%R 2%Z
           H1 H2 H3 H4 H5).
Defined.

Lemma feedforward_output_dimensions_witness :
  shapes_ok [1; 1] (net11 0 0) /\
  width (Arr2 two_zeros) = nth 0 [1; 1] 0 /\
  exists rows,
    feedforward (net11 0 0) (Arr2 two_zeros) = Ok (List2 rows) /\
    length rows = nrows two_zeros /\
    Forall (fun l => length l = nth (length [1; 1] - 1) [1; 1] 0) rows.
Proof.
  assert (H1 : shapes_ok [1; 1] (net11 0 0)) by apply net11_shapes_ok.
  assert (H2 : width (Arr2 two_zeros) = nth 0 [1; 1] 0) by reflexivity.
  split; [exact H1|]. split; [exact H2|].
  exact (@feedforward_output_dimensions R R_Scalar [1; 1] (net11 0 0) (Arr2 two_zeros) H1 H2).
Defined.

Lemma feedforward_rows_independent_witness :
  shapes_ok [1; 1] (net11 0 0) /\
  ncols two_zeros = nth 0 [1; 1] 0 /\
  1 < nrows two_zeros /\
  exists rows l,
    feedforward (net11 0 0) (Arr2 two_zeros) = Ok (List2 rows) /\
    feedforward (net11 0 0) (Arr1 (row two_zeros 1)) = Ok (List1 l) /\
    nth_error rows 1 = Some l.
Proof.
  assert (H1 : shapes_ok [1; 1] (net11 0 0)) by apply net11_shapes_ok.
  assert (H2 : ncols two_zeros = nth 0 [1; 1] 0) by reflexivity.
  assert (H3 : 1 < nrows two_zeros) by (simpl; lia).
  split; [exact H1|]. split; [exact H2|]. split; [exact H3|].
  exact (@feedforward_rows_independent R R_Scalar [1; 1] (net11 0 0) two_zeros 1 H1 H2 H3).
Defined.

Lemma constructor_draws_witness :
  exists self pos',
    Perceptron_call rng_half alloc_any 0 [3%Z; 4%Z; 1%Z] = Ok (self, pos') /\
    pos' = 0 + draws (map Z.to_nat [3%Z; 4%Z; 1%Z]) 0 (length [3%Z; 4%Z; 1%Z] - 1).
Proof.
  eexists. eexists.
  assert (H : Perceptron_call rng_half alloc_any 0 [3%Z; 4%Z; 1%Z] = Ok (_, _))
    by reflexivity.
  split; [exact H|].
  exact (@constructor_draws R R_Scalar rng_half alloc_any 0 _ [3%Z; 4%Z; 1%Z] _ H).
Defined.

Lemma constructed_network_keeps_evaluating_witness :
  exists self pos',
    Perceptron_call rng_half alloc_any 0 [1%Z; 1%Z] = Ok (self, pos') /\
    width (Arr1 (np_array1 [0%R])) = Z.to_nat (nth 0 [1%Z; 1%Z] 0%Z) /\
    exists p,
      feedforward (network (learn self two_wide two_ones 3 1%R true 0))
        (Arr1 (np_array1 [0%R])) = Ok p.
Proof.
  eexists. eexists.
  assert (H2 : width (Arr1 (np_array1 [0%R])) = Z.to_nat (nth 0 [1%Z; 1%Z] 0%Z))
    by reflexivity.
  split; [reflexivity|]. split; [exact H2|].
  exact (@constructed_network_keeps_evaluating R R_Scalar rng_half alloc_any 0 _ [1%Z; 1%Z] _
           two_wide two_ones 3%Z 1%R true 0%Z (Arr1 (np_array1 [0%R])) eq_refl H2).
Defined.

(** * The range of the outputs, over the reals and in float64 *)

Lemma sigmoid_real_range (z : R) : (0 < sigmoid z < 1)%R.
Proof.
  unfold sigmoid. simpl.
  pose proof (exp_pos (- z)) as He.
  assert (Hd : (0 < 1 + exp (- z))%R) by lra.
  assert (Hinv : (0 < / (1 + exp (- z)))%R) by (apply Rinv_0_lt_compat; exact Hd).
  assert (Hone : (/ (1 + exp (- z)) * (1 + exp (- z)) = 1)%R) by (field; lra).
  unfold Rdiv. rewrite Rmult_1_l. split; [exact Hinv|]. nra.
Qed.

Lemma steep_net_shapes_ok (np_exp : float -> float) : shapes_ok [1; 1] (steep_net np_exp).
Proof.
  unfold shapes_ok, shapes_upto. simpl. split; [reflexivity|]. split; [reflexivity|].
  intros i Hi. assert (i = 0) by lia. subst i.
  unfold layer_shape. simpl. eexists; eexists. repeat split.
Qed.

(** C8 as the specification states it fails in float64, the arithmetic of
    the code, whatever exponential the platform has, as long as it overflows
    at [710] and underflows at [-800], as every float64 exponential does
    ([e^710] is above the largest float64 and [e^-800] below the smallest):
    the network [1, 1] with weight [-1.0] and bias [0.0] gives on the finite
    input [710.0] the output [1 / (1 + inf)], exactly [0.0], and on [-800.0]
    the output [1 / (1 + 0)], exactly [1.0]. *)
Lemma range_not_strict_in_float64 :
  ~ (exists np_exp : float -> float,
        np_exp 710%float = infinity /\
        @outputs_strictly_inside float (binary64 np_exp) float_lt float_finite) /\
  ~ (exists np_exp : float -> float,
        np_exp (-800)%float = 0%float /\
        @outputs_strictly_inside float (binary64 np_exp) float_lt float_finite).
Proof.
  split.
  - intros (np_exp & Hexp & H).
    specialize (H [1; 1] (steep_net np_exp)
                  (@np_array1 float (binary64 np_exp) [710%float]) [0%float]).
    assert (Hall : Forall (fun y => float_lt (@f0 float (binary64 np_exp)) y /\
                                    float_lt y (@f1 float (binary64 np_exp))) [0%float]).
    { apply H.
      - simpl; lia.
      - apply steep_net_shapes_ok.
      - reflexivity.
      - intros j Hj. simpl in Hj. assert (j = 0) by lia. subst j. reflexivity.
      - assert (Hff : @feedforward float (binary64 np_exp) (steep_net np_exp)
                        (Arr1 (@np_array1 float (binary64 np_exp) [710%float]))
                      = Ok (List1 [(1 / (1 + np_exp 710))%float]))
          by (vm_compute; reflexivity).
        rewrite Hff, Hexp. vm_compute. reflexivity. }
    inversion Hall as [|y l' (Hlt & _) _]; subst.
    vm_compute in Hlt. discriminate.
  - intros (np_exp & Hexp & H).
    specialize (H [1; 1] (steep_net np_exp)
                  (@np_array1 float (binary64 np_exp) [(-800)%float]) [1%float]).
    assert (Hall : Forall (fun y => float_lt (@f0 float (binary64 np_exp)) y /\
                                    float_lt y (@f1 float (binary64 np_exp))) [1%float]).
    { apply H.
      - simpl; lia.
      - apply steep_net_shapes_ok.
      - reflexivity.
      - intros j Hj. simpl in Hj. assert (j = 0) by lia. subst j. reflexivity.
      - assert (Hff : @feedforward float (binary64 np_exp) (steep_net np_exp)
                        (Arr1 (@np_array1 float (binary64 np_exp) [(-800)%float]))
                      = Ok (List1 [(1 / (1 + np_exp (-800)))%float]))
          by (vm_compute; reflexivity).
        rewrite Hff, Hexp. vm_compute. reflexivity. }
    inversion Hall as [|y l' (_ & Hlt) _]; subst.
    vm_compute in Hlt. discriminate.
Qed.

(** C8, amended.  In exact arithmetic, over the real numbers, every
    component of what [feedforward] returns for a network of at least two
    layers and an input vector of the right width lies strictly between [0]
    and [1]. *)
Theorem outputs_strictly_inside_over_reals :
  @outputs_strictly_inside R R_Scalar Rlt (fun _ => True).
Proof.
  intros layer_sizes self v l HL Hok Hw _ Hff.
  destruct (feedforward_ok layer_sizes self (Arr1 v) Hok Hw)
    as (acts & out & Hlen & Hhd & Hrec & Hlast & Hff' & _ & Hnd).
  destruct acts as [|a0 tl]; [discriminate|]. simpl in Hhd. injection Hhd as ->.
  rewrite last_cons in Hlast.
  assert (Hne : tl <> []) by (intros ->; simpl in Hlen; lia).
  pose proof (recurrence_last_sigmoid self tl (Arr1 v) 0 Hne Hrec) as Hsig.
  rewrite Hlast in Hsig. rewrite Hff' in Hff.
  destruct out as [v'|m']; simpl in Hnd; [|discriminate].
  simpl in Hff. injection Hff as <-.
  apply Forall_forall. intros y Hy. unfold vec_tolist in Hy.
  apply in_map_iff in Hy. destruct Hy as (j & <- & Hj). apply in_seq in Hj.
  destruct (Hsig j) as (z & ->); [lia|]. apply sigmoid_real_range.
Qed.

(** C8, amended, on the network [1, 1] and the vector [[0]]. *)
Lemma outputs_strictly_inside_over_reals_witness :
  exists l,
    feedforward (net11 0 0) (Arr1 (np_array1 [0%R])) = Ok (List1 l) /\
    Forall (fun y => (0 < y)%R /\ (y < 1)%R) l.
Proof.
  eexists. split; [reflexivity|].
  apply (outputs_strictly_inside_over_reals [1; 1] (net11 0 0) (np_array1 [0%R])).
  - simpl; lia.
  - apply net11_shapes_ok.
  - reflexivity.
  - intros j _. exact I.
  - reflexivity.
Defined.
